(** * Verification model of [business_chatbot.py] (X Analyzer chatbot)

    Shallow embedding of the parts of the Streamlit script that the
    specification talks about:
    - [create_visualization] (lines 100-140): locate the outermost
      brace span of an assistant reply, decode it, build a chart;
    - the chat input handler (lines 151-184): append the user message,
      call the completion endpoint, append the reply;
    - the "Clear Chat History" button (lines 189-191);
    - canvas mode (lines 212-242);
    and, built from these, a run of the whole script (lines 1-242).

    Python [str] values are kept as their UTF-8 bytes; where the code
    looks at characters ([str.strip], [float]), the bytes are read back
    as code points.

    Python effects are modelled by a state-and-exception monad over the
    session: [st.session_state.messages], the page output (markdown,
    subheaders, errors, charts) and the requests sent to the endpoint.
    As in Python, effects performed before an exception is raised are
    kept. *)

From Stdlib Require Import String Ascii List ZArith Lia Bool.
Import ListNotations.
Local Open Scope string_scope.
Local Open Scope list_scope.
Local Set Warnings "-register-all".

(* ------------------------------------------------------------------ *)
(** ** Python values produced by [json.loads] *)

Inductive json : Type :=
| JNull
| JBool (b : bool)
| JNum (lexeme : string)          (** the number as written *)
| JStr (s : string)
| JArr (items : list json)
| JObj (fields : list (string * json)).  (** in source order *)

(** Exceptions the code can raise; their messages are not modelled. *)
Inductive py_exn : Type :=
| JSONDecodeError
| AttributeError
| TypeError
| KeyError
| IndexError
| ValueError
| RequestException.

Inductive result (A : Type) : Type :=
| Ok (a : A)
| Err (e : py_exn).
Arguments Ok {A} a.
Arguments Err {A} e.

(** Python [==] between a JSON value and a string literal. *)
Definition json_is_str (k : string) (j : json) : bool :=
  match j with JStr s => String.eqb s k | _ => false end.

(** A [dict] built by [json.loads] keeps the last value of a repeated key. *)
Definition dict_lookup (fields : list (string * json)) (k : string) : option json :=
  match find (fun kv => String.eqb (fst kv) k) (rev fields) with
  | Some (_, v) => Some v
  | None => None
  end.

(** [d.get(k, default)]: only dicts have [.get]. *)
Definition py_get (d : json) (k : string) (default : json) : result json :=
  match d with
  | JObj fs => match dict_lookup fs k with Some v => Ok v | None => Ok default end
  | _ => Err AttributeError
  end.

(** Substring test of Python's [k in s] for strings. *)
Fixpoint is_prefix (p s : string) : bool :=
  match p, s with
  | EmptyString, _ => true
  | String a p', String b s' => Ascii.eqb a b && is_prefix p' s'
  | String _ _, EmptyString => false
  end.

Fixpoint is_substring (p s : string) : bool :=
  is_prefix p s ||
  match s with
  | EmptyString => false
  | String _ s' => is_substring p s'
  end.

(** [k in c] for a string [k]: key test on dicts, element test on lists,
    substring test on strings, [TypeError] on numbers, booleans and [None]. *)
Definition py_contains (c : json) (k : string) : result bool :=
  match c with
  | JObj fs => Ok (existsb (fun kv => String.eqb (fst kv) k) fs)
  | JArr l => Ok (existsb (json_is_str k) l)
  | JStr s => Ok (is_substring k s)
  | _ => Err TypeError
  end.

(** [c[k]] for a string key [k]. *)
Definition py_getitem_str (c : json) (k : string) : result json :=
  match c with
  | JObj fs => match dict_lookup fs k with Some v => Ok v | None => Err KeyError end
  | _ => Err TypeError
  end.

(** [c[i]] for an integer index [i] (negative indices count from the end). *)
Definition py_getitem_int (c : json) (i : Z) : result json :=
  let pick {A} (l : list A) (n : nat) (f : A -> json) :=
    let n' := if (i <? 0)%Z then (Z.of_nat n + i)%Z else i in
    if ((0 <=? n') && (n' <? Z.of_nat n))%Z
    then match nth_error l (Z.to_nat n') with Some a => Ok (f a) | None => Err IndexError end
    else Err IndexError in
  match c with
  | JArr l => pick l (length l) (fun x => x)
  | JStr s => pick (list_ascii_of_string s) (String.length s) (fun a => JStr (String a EmptyString))
  | JObj _ => Err KeyError
  | _ => Err TypeError
  end.

(* ------------------------------------------------------------------ *)
(** ** [json.loads]

    The chart code is proved for any decoder (a [Variable] of the
    sections below).  For concrete runs we use the following decoder,
    which follows the grammar accepted by Python's [json.loads]: RFC 8259
    values, [NaN], [Infinity] and [-Infinity], whitespace made of space,
    tab, line feed and carriage return, control characters rejected
    inside strings, and trailing non-whitespace rejected ("Extra data").
    Texts are the UTF-8 bytes of Python's [str] values, so a [\uXXXX]
    escape gives the UTF-8 bytes of its code point, and a high surrogate
    escape followed by a low one gives the code point of the pair. *)

Definition json_ws (c : ascii) : bool :=
  match nat_of_ascii c with 9 | 10 | 13 | 32 => true | _ => false end.

Fixpoint skip_ws (s : string) : string :=
  match s with
  | String c r => if json_ws c then skip_ws r else s
  | EmptyString => s
  end.

Definition is_digit (c : ascii) : bool :=
  let n := nat_of_ascii c in Nat.leb 48 n && Nat.leb n 57.

Definition hex_val (c : ascii) : option nat :=
  let n := nat_of_ascii c in
  if Nat.leb 48 n && Nat.leb n 57 then Some (n - 48)
  else if Nat.leb 65 n && Nat.leb n 70 then Some (n - 55)
  else if Nat.leb 97 n && Nat.leb n 102 then Some (n - 87)
  else None.

(** Maximal run of digits: [(run, rest)]. *)
Fixpoint take_digits (s : string) : string * string :=
  match s with
  | String c r =>
      if is_digit c then let (d, r') := take_digits r in (String c d, r')
      else (EmptyString, s)
  | EmptyString => (EmptyString, EmptyString)
  end.

Definition dquote : ascii := ascii_of_nat 34.
Definition bslash : ascii := ascii_of_nat 92.

(** Number: [-? (0 | [1-9][0-9]* ) (. [0-9]+)? ([eE] [+-]? [0-9]+)?]. *)
Definition parse_number (s : string) : option (string * string) :=
  let '(sign, s1) := match s with
                     | String "-" r => ("-", r)
                     | _ => (EmptyString, s)
                     end in
  let '(ip, s2) := take_digits s1 in
  let int_ok := match ip with
                | EmptyString => false
                | String "0" EmptyString => true
                | String "0" _ => false
                | _ => true
                end in
  if negb int_ok then
    (* "-Infinity" *)
    if String.eqb sign "-" && is_prefix "Infinity" s1
    then Some ("-Infinity", substring 8 (String.length s1 - 8) s1)
    else None
  else
  let frac := match s2 with
              | String "." r =>
                  let (fp, r') := take_digits r in
                  if String.eqb fp EmptyString then None else Some (String.append "." fp, r')
              | _ => Some (EmptyString, s2)
              end in
  match frac with
  | None => None
  | Some (fr, s3) =>
      let ex := match s3 with
                | String e r =>
                    if Ascii.eqb e "e"%char || Ascii.eqb e "E"%char then
                      let '(sg, r1) := match r with
                                       | String "+" r1 => ("+", r1)
                                       | String "-" r1 => ("-", r1)
                                       | _ => (EmptyString, r)
                                       end in
                      let (ed, r2) := take_digits r1 in
                      if String.eqb ed EmptyString then None
                      else Some (String e (String.append sg ed), r2)
                    else Some (EmptyString, s3)
                | EmptyString => Some (EmptyString, s3)
                end in
      match ex with
      | None => None
      | Some (e, s4) => Some (String.append sign (String.append ip (String.append fr e)), s4)
      end
  end.

Definition digits_value (d : string) : Z :=
  fold_left (fun acc c => (10 * acc + Z.of_nat (nat_of_ascii c - 48))%Z)
            (list_ascii_of_string d) 0%Z.

(** The digits and the power of ten of a JSON number lexeme (sign
    dropped): the value is [digits * 10^e]. *)
Definition num_parts (n : string) : string * Z :=
  let s1 := match n with String "-" r => r | _ => n end in
  let (ip, s2) := take_digits s1 in
  let (fp, s3) := match s2 with
                  | String "." r => take_digits r
                  | _ => (EmptyString, s2)
                  end in
  let ex := match s3 with
            | String _ r =>
                let '(neg, r1) := match r with
                                  | String "+" r1 => (false, r1)
                                  | String "-" r1 => (true, r1)
                                  | _ => (false, r)
                                  end in
                let v := digits_value (fst (take_digits r1)) in
                if neg then (- v)%Z else v
            | EmptyString => 0%Z
            end in
  (String.append ip fp, (ex - Z.of_nat (String.length fp))%Z).

(** Whether [json.loads] decodes a number lexeme to zero.  A lexeme
    without fraction and exponent gives an exact [int]; any other gives
    [float(lexeme)], correctly rounded, so a value in (0, 2^-1075]
    underflows to 0.0 (2^-1075 itself is a tie, rounded to the even
    0.0).  As 2^1075 < 10^324, a value below 10^(-324-#digits) needs no
    big power.  [NaN], [Infinity] and [-Infinity] are not zero. *)
Definition num_is_zero (n : string) : bool :=
  if String.eqb n "NaN" || String.eqb n "Infinity" || String.eqb n "-Infinity" then false
  else
    let (ds, e) := num_parts n in
    let m := digits_value ds in
    if Z.eqb m 0 then true
    else if Z.leb 0 e then false
    else if Z.leb (Z.of_nat (String.length ds) + 324) (- e) then true
    else Z.leb (m * 2 ^ 1075)%Z (10 ^ (- e))%Z.

(** Python truthiness of a JSON value. *)
Definition truthy (j : json) : bool :=
  match j with
  | JNull => false
  | JBool b => b
  | JNum n => negb (num_is_zero n)
  | JStr s => negb (String.eqb s "")
  | JArr l => negb (Nat.eqb (length l) 0)
  | JObj fs => negb (Nat.eqb (length fs) 0)
  end.

Definition hex4 (h1 h2 h3 h4 : ascii) : option Z :=
  match hex_val h1, hex_val h2, hex_val h3, hex_val h4 with
  | Some a, Some b, Some c, Some d =>
      Some (Z.of_nat a * 4096 + Z.of_nat b * 256 + Z.of_nat c * 16 + Z.of_nat d)%Z
  | _, _, _, _ => None
  end.

Definition byte_of (n : Z) : ascii := ascii_of_nat (Z.to_nat n).

(** The UTF-8 bytes of a code point below 0x110000.  A lone surrogate,
    which Python keeps in the [str], gets its three-byte form. *)
Definition utf8_encode (code : Z) : string :=
  let cont k := byte_of (128 + k mod 64)%Z in
  if (code <? 128)%Z then String (byte_of code) EmptyString
  else if (code <? 2048)%Z then
    String (byte_of (192 + code / 64)%Z) (String (cont code) EmptyString)
  else if (code <? 65536)%Z then
    String (byte_of (224 + code / 4096)%Z)
      (String (cont (code / 64)%Z) (String (cont code) EmptyString))
  else
    String (byte_of (240 + code / 262144)%Z)
      (String (cont (code / 4096)%Z) (String (cont (code / 64)%Z) (String (cont code) EmptyString))).

(** String body after the opening quote, up to and including the closing one. *)
Fixpoint parse_string_body (s : string) : option (string * string) :=
  match s with
  | EmptyString => None
  | String c r =>
      if Ascii.eqb c dquote then Some (EmptyString, r)
      else if Nat.ltb (nat_of_ascii c) 32 then None
      else if Ascii.eqb c bslash then
        match r with
        | String e r' =>
            let emit (d : ascii) (rest : string) :=
              match parse_string_body rest with
              | Some (b, rest') => Some (String d b, rest')
              | None => None
              end in
            let emit_bytes (d : string) (rest : string) :=
              match parse_string_body rest with
              | Some (b, rest') => Some (String.append d b, rest')
              | None => None
              end in
            if Ascii.eqb e dquote then emit dquote r'
            else if Ascii.eqb e bslash then emit bslash r'
            else if Ascii.eqb e "/"%char then emit "/"%char r'
            else if Ascii.eqb e "b"%char then emit (ascii_of_nat 8) r'
            else if Ascii.eqb e "f"%char then emit (ascii_of_nat 12) r'
            else if Ascii.eqb e "n"%char then emit (ascii_of_nat 10) r'
            else if Ascii.eqb e "r"%char then emit (ascii_of_nat 13) r'
            else if Ascii.eqb e "t"%char then emit (ascii_of_nat 9) r'
            else if Ascii.eqb e "u"%char then
              match r' with
              | String h1 (String h2 (String h3 (String h4 r''))) =>
                  match hex4 h1 h2 h3 h4 with
                  | Some code =>
                      let lone := emit_bytes (utf8_encode code) r'' in
                      if ((55296 <=? code) && (code <=? 56319))%Z then
                        (* a high surrogate followed by [\u] and a low one *)
                        match r'' with
                        | String b1 (String u (String k1 (String k2 (String k3 (String k4 r3))))) =>
                            if Ascii.eqb b1 bslash && Ascii.eqb u "u"%char then
                              match hex4 k1 k2 k3 k4 with
                              | Some low =>
                                  if ((56320 <=? low) && (low <=? 57343))%Z then
                                    emit_bytes
                                      (utf8_encode (65536 + (code - 55296) * 1024 + (low - 56320))%Z)
                                      r3
                                  else lone
                              | None => lone
                              end
                            else lone
                        | _ => lone
                        end
                      else lone
                  | None => None
                  end
              | _ => None
              end
            else None
        | EmptyString => None
        end
      else
        match parse_string_body r with
        | Some (b, rest) => Some (String c b, rest)
        | None => None
        end
  end.

Fixpoint parse_value (fuel : nat) (s : string) {struct fuel} : option (json * string) :=
  match fuel with
  | O => None
  | S f =>
      match skip_ws s with
      | String "{" r =>
          match skip_ws r with
          | String "}" r' => Some (JObj [], r')
          | r1 => parse_members f r1 []
          end
      | String "[" r =>
          match skip_ws r with
          | String "]" r' => Some (JArr [], r')
          | r1 => parse_elems f r1 []
          end
      | String c r as s0 =>
          if Ascii.eqb c dquote then
            match parse_string_body r with
            | Some (b, r') => Some (JStr b, r')
            | None => None
            end
          else if is_prefix "true" s0 then Some (JBool true, substring 4 (String.length s0 - 4) s0)
          else if is_prefix "false" s0 then Some (JBool false, substring 5 (String.length s0 - 5) s0)
          else if is_prefix "null" s0 then Some (JNull, substring 4 (String.length s0 - 4) s0)
          else if is_prefix "NaN" s0 then Some (JNum "NaN", substring 3 (String.length s0 - 3) s0)
          else if is_prefix "Infinity" s0 then Some (JNum "Infinity", substring 8 (String.length s0 - 8) s0)
          else match parse_number s0 with
               | Some (n, r') => Some (JNum n, r')
               | None => None
               end
      | EmptyString => None
      end
  end
(** [key : value (, key : value)* }] with the opening brace consumed. *)
with parse_members (fuel : nat) (s : string) (acc : list (string * json)) {struct fuel}
  : option (json * string) :=
  match fuel with
  | O => None
  | S f =>
      match skip_ws s with
      | String q r =>
          if Ascii.eqb q dquote then
            match parse_string_body r with
            | Some (k, r1) =>
                match skip_ws r1 with
                | String ":" r2 =>
                    match parse_value f r2 with
                    | Some (v, r3) =>
                        match skip_ws r3 with
                        | String "," r4 => parse_members f r4 (acc ++ [(k, v)])
                        | String "}" r4 => Some (JObj (acc ++ [(k, v)]), r4)
                        | _ => None
                        end
                    | None => None
                    end
                | _ => None
                end
            | None => None
            end
          else None
      | EmptyString => None
      end
  end
(** [value (, value)* ]] with the opening bracket consumed. *)
with parse_elems (fuel : nat) (s : string) (acc : list json) {struct fuel}
  : option (json * string) :=
  match fuel with
  | O => None
  | S f =>
      match parse_value f s with
      | Some (v, r) =>
          match skip_ws r with
          | String "," r' => parse_elems f r' (acc ++ [v])
          | String "]" r' => Some (JArr (acc ++ [v]), r')
          | _ => None
          end
      | None => None
      end
  end.

(** Every call of the three parsers consumes at least one character
    before the next one is made, so [length + 1] steps of fuel suffice. *)
Definition json_loads (s : string) : option json :=
  match parse_value (S (String.length s)) s with
  | Some (v, rest) => if String.eqb (skip_ws rest) EmptyString then Some v else None
  | None => None
  end.

(* ------------------------------------------------------------------ *)
(** ** Session state and the page *)

Inductive msg_role : Type := System | User | Assistant.

(** A chat message [{"role": ..., "content": ...}].  The content of an
    assistant message is whatever the endpoint returned, not always a
    string. *)
Record message : Type := mkMessage { role : msg_role; content : json }.

Inductive theme : Type := DayMode | NightMode.

Inductive chart_kind : Type := Pie | Line | Bar.

(** [PlotlyDefault] is the template plotly express applies (plotly's
    default, "plotly"). *)
Inductive template : Type := PlotlyDefault | PlotlyDark | PlotlyWhite.

(** Python [float] values, kept exact: [PFin neg m e] is [(-1)^neg * m * 10^e]. *)
Inductive pyfloat : Type :=
| PFin (neg : bool) (mant : Z) (exp10 : Z)
| PInf (neg : bool)
| PNaN.

(** Cells of a pandas DataFrame: a decoded JSON value or a float. *)
Inductive cell : Type := CJ (j : json) | CF (x : pyfloat).

(** A plotly figure: chart shape, title text (when set), the
    (Category, Amount) rows in order, line markers, and of the layout
    the template, the x and y axis titles (when set) and the title font
    size (when set). *)
Record figure : Type := mkFigure {
  fig_kind : chart_kind;
  fig_title : option json;
  fig_rows : list (cell * cell);
  fig_markers : bool;
  fig_template : template;
  fig_axis_titles : option (string * string);
  fig_title_size : option nat
}.

Inductive error_msg : Type :=
| VizError (e : py_exn)                 (** "Error creating visualization: ..." *)
| ApiStatus (code : Z) (err : json)     (** "Error: <status> - <error>" *)
| ApiError (e : py_exn)                 (** "Error: ..." *)
| CanvasCountMismatch                   (** "The number of categories and amounts must be the same." *)
| CanvasValueError (e : py_exn).        (** "Error: ... Please make sure amounts are numeric values." *)

(** What the script writes on the page. *)
Inductive ui_event : Type :=
| UMarkdown (j : json)
| USubheader (title : json)
| UChart (f : figure)
| UError (m : error_msg).

Record session : Type := mkSession {
  messages : list message;          (** [st.session_state.messages] *)
  page : list ui_event;             (** page output, in order *)
  sent : list (list message)        (** message lists posted to the endpoint *)
}.

(** [history()]: the messages shown to the user, [messages[1:]]. *)
Definition history (s : session) : list message := tl (messages s).

(* ------------------------------------------------------------------ *)
(** ** State and exception monad *)

Definition M (A : Type) : Type := session -> result A * session.

Definition ret {A} (a : A) : M A := fun s => (Ok a, s).

Definition bind {A B} (m : M A) (k : A -> M B) : M B :=
  fun s => match m s with
           | (Ok a, s') => k a s'
           | (Err e, s') => (Err e, s')
           end.

Notation "x <- m ;; k" := (bind m (fun x => k))
  (at level 61, m at next level, right associativity).
Notation "m ;;; k" := (bind m (fun _ => k))
  (at level 61, right associativity).

Definition raise {A} (e : py_exn) : M A := fun s => (Err e, s).

Definition lift {A} (r : result A) : M A := fun s => (r, s).

(** [try: m except: h(e)]: the handler runs in the state reached when
    the exception was raised. *)
Definition try_except {A} (m : M A) (h : py_exn -> M A) : M A :=
  fun s => match m s with
           | (Ok a, s') => (Ok a, s')
           | (Err e, s') => h e s'
           end.

Definition emit (u : ui_event) : M unit :=
  fun s => (Ok tt, mkSession (messages s) (page s ++ [u]) (sent s)).

Definition st_markdown (j : json) : M unit := emit (UMarkdown j).
Definition st_subheader (t : json) : M unit := emit (USubheader t).
Definition st_plotly_chart (f : figure) : M unit := emit (UChart f).
Definition st_error (m : error_msg) : M unit := emit (UError m).

Definition get_messages : M (list message) := fun s => (Ok (messages s), s).

(** [st.session_state.messages.append(m)] *)
Definition append_message (m : message) : M unit :=
  fun s => (Ok tt, mkSession (messages s ++ [m]) (page s) (sent s)).

(** [st.session_state.messages = l] *)
Definition set_messages (l : list message) : M unit :=
  fun s => (Ok tt, mkSession l (page s) (sent s)).

(* ------------------------------------------------------------------ *)
(** ** [str.find], [str.rfind] and slicing *)

(** Index of the first occurrence of [c] in [s]. *)
Fixpoint find_char (c : ascii) (s : string) : option nat :=
  match s with
  | EmptyString => None
  | String d r =>
      if Ascii.eqb c d then Some 0
      else match find_char c r with Some i => Some (S i) | None => None end
  end.

(** Index of the last occurrence of [c] in [s]. *)
Fixpoint rfind_char (c : ascii) (s : string) : option nat :=
  match s with
  | EmptyString => None
  | String d r =>
      match rfind_char c r with
      | Some i => Some (S i)
      | None => if Ascii.eqb c d then Some 0 else None
      end
  end.

(** [s.find(c)] and [s.rfind(c)]: [-1] when absent. *)
Definition py_find (c : ascii) (s : string) : Z :=
  match find_char c s with Some i => Z.of_nat i | None => (-1)%Z end.

Definition py_rfind (c : ascii) (s : string) : Z :=
  match rfind_char c s with Some i => Z.of_nat i | None => (-1)%Z end.

(** [s[a:b]] for [0 <= a <= b]. *)
Definition py_slice (s : string) (a b : Z) : string :=
  substring (Z.to_nat a) (Z.to_nat (b - a)) s.

(* ------------------------------------------------------------------ *)
(** ** [create_visualization] (lines 100-140) *)

Section Charts.

(** [json.loads]: [None] when it raises. *)
Variable loads : string -> option json.

(** pandas builds a frame from dict-valued columns by aligning their
    keys; that alignment is left abstract. *)
Variable frame_dict : json -> json -> result (list (json * json)).

(** [pd.DataFrame({'Category': labels, 'Amount': values})]: lists must
    have the same length ("All arrays must be of the same length"), a
    scalar next to a list is repeated along it, two scalars raise
    ("If using all scalar values, you must pass an index"). *)
Definition pd_DataFrame (labels values : json) : result (list (cell * cell)) :=
  let cells := map (fun p => (CJ (fst p), CJ (snd p))) in
  match labels, values with
  | JObj _, _ | _, JObj _ =>
      match frame_dict labels values with
      | Ok rows => Ok (cells rows)
      | Err e => Err e
      end
  | JArr l, JArr v =>
      if Nat.eqb (length l) (length v) then Ok (cells (combine l v)) else Err ValueError
  | JArr l, v => Ok (map (fun x => (CJ x, CJ v)) l)
  | l, JArr v => Ok (map (fun y => (CJ l, CJ y)) v)
  | _, _ => Err ValueError
  end.

(** plotly express sets the layout title text when [title] is truthy;
    the title validator accepts strings and numbers only. *)
Definition px_title (title : json) : result (option json) :=
  if truthy title then
    match title with
    | JArr _ | JObj _ => Err ValueError
    | _ => Ok (Some title)
    end
  else Ok None.

(** [px.pie] / [px.line(..., markers=True)] / [px.bar] over the frame,
    with [x='Category'] and [y='Amount'] for line and bar: plotly express
    applies the default template and, on cartesian charts, titles the
    axes with the column names; a pie chart has no axes. *)
Definition px_chart (k : chart_kind) (rows : list (cell * cell)) (title : json) : result figure :=
  match px_title title with
  | Ok t =>
      Ok (mkFigure k t rows (match k with Line => true | _ => false end) PlotlyDefault
                   (match k with Pie => None | _ => Some ("Category", "Amount") end) None)
  | Err e => Err e
  end.

Definition template_of (th : theme) : template :=
  match th with NightMode => PlotlyDark | DayMode => PlotlyWhite end.

(** [fig.update_layout(template=..., title_font=dict(size=24),
    xaxis_title='Category', yaxis_title='Amount')] *)
Definition update_layout (th : theme) (f : figure) : figure :=
  mkFigure (fig_kind f) (fig_title f) (fig_rows f) (fig_markers f)
           (template_of th) (Some ("Category", "Amount")) (Some 24).

(** [if chart_type == "pie" ... elif chart_type == "line" ... else]. *)
Definition kind_of (chart_type : json) : chart_kind :=
  if json_is_str "pie" chart_type then Pie
  else if json_is_str "line" chart_type then Line
  else Bar.

Definition json_loads_r (s : string) : result json :=
  match loads s with Some d => Ok d | None => Err JSONDecodeError end.

(** Lines 109-137, from the decoded object on. *)
Definition chart_of_data (th : theme) (data : json) : M bool :=
  chart_type <- lift (py_get data "chart_type" (JStr "bar")) ;;
  title <- lift (py_get data "title" (JStr "Financial Analysis")) ;;
  chart_data <- lift (py_get data "data" (JObj [])) ;;
  has_labels <- lift (py_contains chart_data "labels") ;;
  has_both <- (if has_labels then lift (py_contains chart_data "values") else ret false) ;;
  if has_both then
    labels <- lift (py_getitem_str chart_data "labels") ;;
    values <- lift (py_getitem_str chart_data "values") ;;
    df <- lift (pd_DataFrame labels values) ;;
    st_subheader title ;;;
    fig <- lift (px_chart (kind_of chart_type) df title) ;;
    st_plotly_chart (update_layout th fig) ;;;
    ret true
  else ret false.

(** Lines 107-137: [data = json.loads(json_str)] and the chart. *)
Definition decode_and_chart (th : theme) (json_str : string) : M bool :=
  data <- lift (json_loads_r json_str) ;;
  chart_of_data th data.

(** The body of the [try] block (lines 102-137). *)
Definition visualization_body (th : theme) (text : json) : M bool :=
  match text with
  | JStr t =>
      let start := py_find "{"%char t in
      let end_ := (py_rfind "}"%char t + 1)%Z in
      if negb (Z.eqb start (-1)) && Z.ltb start end_ then
        let json_str := py_slice t start end_ in
        decode_and_chart th json_str
      else ret false
  | _ => raise AttributeError          (** only [str] has [.find] *)
  end.

(** [create_visualization(text)]; the global [theme] is a parameter. *)
Definition guarded (m : M bool) : M bool :=
  try_except m (fun e => st_error (VizError e) ;;; ret false).

Definition create_visualization (th : theme) (text : json) : M bool :=
  guarded (visualization_body th text).

End Charts.

(* ------------------------------------------------------------------ *)
(** ** Chat history (lines 88-97, 143-148, 186-191) *)

(** Writes ['] for a double quote, so that literals below stay readable. *)
Fixpoint dq (s : string) : string :=
  match s with
  | EmptyString => EmptyString
  | String c r => String (if Ascii.eqb c "'"%char then dquote else c) (dq r)
  end.

Definition newline : string := String (ascii_of_nat 10) EmptyString.

Definition preamble_text : string :=
  dq (String.concat newline
    [ "You are a helpful financial assistant. Provide advice on budgeting, saving, investing, and personal finance. ";
      "        When users provide financial data (like expenses, income, budgets, investments), respond with both advice AND a JSON object ";
      "        for visualization. Format: {'chart_type': 'pie|bar|line', 'title': 'Chart Title', 'data': {'labels': [], 'values': []}}";
      "        Always remind users to consult with licensed financial advisors for important decisions." ]).

Definition system_preamble : message := mkMessage System (JStr preamble_text).

(** The session right after [st.session_state.messages] is initialised. *)
Definition initial_session : session := mkSession [system_preamble] [] [].

(** "Clear Chat History": [messages = [messages[0]]]. *)
Definition clear_chat_history : M unit :=
  msgs <- get_messages ;;
  m0 <- lift (match msgs with m :: _ => Ok m | [] => Err IndexError end) ;;
  set_messages [m0].

(** A reply of the completion endpoint. *)
Record response : Type := mkResponse { status_code : Z; body : string }.

Section Chat.

Variable loads : string -> option json.
Variable frame_dict : json -> json -> result (list (json * json)).

(** Lines 144-148: show [messages[1:]], charting assistant messages. *)
Fixpoint display_messages (th : theme) (l : list message) : M unit :=
  match l with
  | [] => ret tt
  | m :: r =>
      st_markdown (content m) ;;;
      (match role m with
       | Assistant => _ <- create_visualization loads frame_dict th (content m) ;; ret tt
       | _ => ret tt
       end) ;;;
      display_messages th r
  end.

Definition display_history (th : theme) : M unit :=
  msgs <- get_messages ;;
  display_messages th (tl msgs).

(** [requests.post(url, json={"model": ..., "messages": messages, ...})]:
    the message list is recorded as sent, then the endpoint [post]
    answers or the transport raises. *)
Definition requests_post (post : list message -> result response) : M response :=
  fun s => (post (messages s), mkSession (messages s) (page s) (sent s ++ [messages s])).

(** Lines 151-184; [prompt] is the value of [st.chat_input(...)]. *)
Definition chat_turn (th : theme) (post : list message -> result response)
    (prompt : option string) : M unit :=
  match prompt with
  | None => ret tt
  | Some p =>
      if String.eqb p "" then ret tt       (** the walrus test: [""] is falsy *)
      else
        append_message (mkMessage User (JStr p)) ;;;
        st_markdown (JStr p) ;;;
        try_except
          (response <- requests_post post ;;
           response_data <- lift (json_loads_r loads (body response)) ;;
           if Z.eqb (status_code response) 200 then
             c0 <- lift (py_getitem_str response_data "choices") ;;
             c1 <- lift (py_getitem_int c0 0) ;;
             c2 <- lift (py_getitem_str c1 "message") ;;
             assistant_message <- lift (py_getitem_str c2 "content") ;;
             st_markdown assistant_message ;;;
             _ <- create_visualization loads frame_dict th assistant_message ;;
             append_message (mkMessage Assistant assistant_message)
           else
             err <- lift (py_get response_data "error" (JStr "Unknown error")) ;;
             st_error (ApiStatus (status_code response) err))
          (fun e => st_error (ApiError e))
  end.

End Chat.

(* ------------------------------------------------------------------ *)
(** ** Canvas mode (lines 209-242) *)

(** [str.split(",")]: [""] splits into [[""]]. *)
Fixpoint split_on (c : ascii) (s : string) : list string :=
  match s with
  | EmptyString => [EmptyString]
  | String d r =>
      if Ascii.eqb d c then EmptyString :: split_on c r
      else match split_on c r with
           | h :: t => String d h :: t
           | [] => [String d EmptyString]
           end
  end.

(** The text areas hold Python [str] values; the model keeps their UTF-8
    bytes.  [utf8_chars] cuts a byte string into the encodings of its
    characters (a lead byte and the continuation bytes it announces); a
    byte that starts no well-formed sequence stands alone, which does
    not happen in the encoding of a [str]. *)
Definition utf8_need (b : ascii) : nat :=
  let n := nat_of_ascii b in
  if Nat.ltb n 192 then 0
  else if Nat.ltb n 224 then 1
  else if Nat.ltb n 240 then 2
  else if Nat.ltb n 248 then 3
  else 0.

Definition is_cont (b : ascii) : bool :=
  let n := nat_of_ascii b in Nat.leb 128 n && Nat.ltb n 192.

(** At most [k] continuation bytes: [(taken, rest)]. *)
Fixpoint take_cont (k : nat) (s : string) : string * string :=
  match k, s with
  | S k', String b r =>
      if is_cont b then let (c, r') := take_cont k' r in (String b c, r')
      else (EmptyString, s)
  | _, _ => (EmptyString, s)
  end.

Fixpoint utf8_chars_fuel (fuel : nat) (s : string) : list string :=
  match fuel, s with
  | S f, String b r =>
      let (c, r') := take_cont (utf8_need b) r in
      String b c :: utf8_chars_fuel f r'
  | _, _ => []
  end.

Definition utf8_chars (s : string) : list string := utf8_chars_fuel (String.length s) s.

(** The code point of one character's encoding; [-1] for a byte
    sequence that is not a whole character. *)
Definition char_code (c : string) : Z :=
  let v b := Z.of_nat (nat_of_ascii b) in
  match list_ascii_of_string c with
  | [b0] => if Nat.ltb (nat_of_ascii b0) 128 then v b0 else (-1)%Z
  | [b0; b1] =>
      if Nat.eqb (utf8_need b0) 1 then (Z.land (v b0) 31 * 64 + Z.land (v b1) 63)%Z else (-1)%Z
  | [b0; b1; b2] =>
      if Nat.eqb (utf8_need b0) 2
      then (Z.land (v b0) 15 * 4096 + Z.land (v b1) 63 * 64 + Z.land (v b2) 63)%Z else (-1)%Z
  | [b0; b1; b2; b3] =>
      if Nat.eqb (utf8_need b0) 3
      then (Z.land (v b0) 7 * 262144 + Z.land (v b1) 63 * 4096
            + Z.land (v b2) 63 * 64 + Z.land (v b3) 63)%Z else (-1)%Z
  | _ => (-1)%Z
  end.

(** [Py_UNICODE_ISSPACE], the test of [str.strip()] and [str.isspace()]
    (Unicode 14.0, Python 3.11). *)
Definition py_isspace (c : Z) : bool :=
  (((9 <=? c) && (c <=? 13)) || ((28 <=? c) && (c <=? 32)) || (c =? 133) || (c =? 160)
   || (c =? 5760) || ((8192 <=? c) && (c <=? 8202)) || (c =? 8232) || (c =? 8233)
   || (c =? 8239) || (c =? 8287) || (c =? 12288))%Z.

Fixpoint lstrip_chars (l : list string) : list string :=
  match l with
  | c :: r => if py_isspace (char_code c) then lstrip_chars r else l
  | [] => []
  end.

(** [str.strip()]: whitespace characters removed at both ends. *)
Definition py_strip (s : string) : string :=
  String.concat EmptyString (rev (lstrip_chars (rev (lstrip_chars (utf8_chars s))))).

(** The first code points of the runs of ten decimal digits (general
    category Nd): [Py_UNICODE_TODECIMAL c] is [c - z] for the run
    starting at [z] (Unicode 14.0, Python 3.11). *)
Definition decimal_zeros : list Z := [
  48; 1632; 1776; 1984; 2406; 2534; 2662; 2790; 2918; 3046; 3174; 3302;
  3430; 3558; 3664; 3792; 3872; 4160; 4240; 6112; 6160; 6470; 6608; 6784;
  6800; 6992; 7088; 7232; 7248; 42528; 43216; 43264; 43472; 43504; 43600;
  44016; 65296; 66720; 68912; 69734; 69872; 69942; 70096; 70384; 70736;
  70864; 71248; 71360; 71472; 71904; 72016; 72784; 73040; 73120; 92768;
  92864; 93008; 120782; 120792; 120802; 120812; 120822; 123200; 123632;
  125264; 130032]%Z.

Definition py_todecimal (c : Z) : option Z :=
  match find (fun z => (z <=? c) && (c <? z + 10))%Z decimal_zeros with
  | Some z => Some (c - z)%Z
  | None => None
  end.

(** [_PyUnicode_TransformDecimalAndSpaceToASCII], applied by [float()]
    to a [str]: a code point below 127 is kept, whitespace becomes a
    space, a decimal digit its ASCII digit; at any other code point the
    result is cut after a ["?"]. *)
Fixpoint to_ascii_digits (l : list string) : string :=
  match l with
  | [] => EmptyString
  | ch :: r =>
      let c := char_code ch in
      if ((0 <=? c) && (c <? 127))%Z then String (ascii_of_nat (Z.to_nat c)) (to_ascii_digits r)
      else if py_isspace c then String " " (to_ascii_digits r)
      else match py_todecimal c with
           | Some d => String (ascii_of_nat (48 + Z.to_nat d)) (to_ascii_digits r)
           | None => String "?" EmptyString
           end
  end.

(** [Py_ISSPACE], the ASCII whitespace skipped by the float parser. *)
Definition ascii_space (c : ascii) : bool :=
  match nat_of_ascii c with 9 | 10 | 11 | 12 | 13 | 32 => true | _ => false end.

Fixpoint lstrip_ascii (l : list ascii) : list ascii :=
  match l with
  | c :: r => if ascii_space c then lstrip_ascii r else l
  | [] => []
  end.

Definition ascii_strip (s : string) : string :=
  string_of_list_ascii (rev (lstrip_ascii (rev (lstrip_ascii (list_ascii_of_string s))))).

Definition lower (c : ascii) : ascii :=
  let n := nat_of_ascii c in
  if Nat.leb 65 n && Nat.leb n 90 then ascii_of_nat (n + 32) else c.

Definition map_string (f : ascii -> ascii) (s : string) : string :=
  string_of_list_ascii (map f (list_ascii_of_string s)).

(** Underscores are allowed only between two digits. *)
Fixpoint underscores_ok (prev_digit : bool) (l : list ascii) : bool :=
  match l with
  | [] => true
  | c :: r =>
      if Ascii.eqb c "_"%char then
        prev_digit && match r with d :: _ => is_digit d | [] => false end
        && underscores_ok false r
      else underscores_ok (is_digit c) r
  end.

(** Unsigned decimal: [digits ('.' digits?)? | '.' digits], then an
    optional exponent; returns mantissa and power of ten. *)
Definition parse_decimal (s : string) : option (Z * Z) :=
  let (ip, s1) := take_digits s in
  let (fp, s2) :=
    match s1 with
    | String "." r => take_digits r
    | _ => (EmptyString, s1)
    end in
  if String.eqb (String.append ip fp) EmptyString then None
  else
  let mant := digits_value (String.append ip fp) in
  let shift := Z.of_nat (String.length fp) in
  match s2 with
  | EmptyString => Some (mant, (- shift)%Z)
  | String e r =>
      if Ascii.eqb e "e"%char || Ascii.eqb e "E"%char then
        let '(neg, r1) := match r with
                          | String "+" r1 => (false, r1)
                          | String "-" r1 => (true, r1)
                          | _ => (false, r)
                          end in
        let (ed, r2) := take_digits r1 in
        if String.eqb ed EmptyString || negb (String.eqb r2 EmptyString) then None
        else let ev := digits_value ed in
             Some (mant, ((if neg then - ev else ev) - shift)%Z)
      else None
  end.

(** [float(s)] for a [str] argument: the text is turned to ASCII as
    above, surrounding ASCII whitespace is ignored, then an optional
    sign, then [inf], [infinity] or [nan] in any case, or a decimal
    literal with optional digit-separating underscores.  Anything else
    raises [ValueError] ([None] here). *)
Definition py_float (s0 : string) : option pyfloat :=
  let s := ascii_strip (to_ascii_digits (utf8_chars s0)) in
  let '(neg, body) := match s with
                      | String "-" r => (true, r)
                      | String "+" r => (false, r)
                      | _ => (false, s)
                      end in
  let low := map_string lower body in
  if String.eqb low "inf" || String.eqb low "infinity" then Some (PInf neg)
  else if String.eqb low "nan" then Some PNaN
  else if negb (underscores_ok false (list_ascii_of_string body)) then None
  else
    let plain := string_of_list_ascii
                   (filter (fun c => negb (Ascii.eqb c "_"%char)) (list_ascii_of_string body)) in
    match parse_decimal plain with
    | Some (m, e) => Some (PFin neg m e)
    | None => None
    end.

(** [list(map(float, amounts))]: the first failure raises. *)
Fixpoint map_float (l : list string) : result (list pyfloat) :=
  match l with
  | [] => Ok []
  | a :: r =>
      match py_float a with
      | Some x => match map_float r with Ok xs => Ok (x :: xs) | Err e => Err e end
      | None => Err ValueError
      end
  end.

(** Lines 212-242; [enabled] is the checkbox, [categories] and [amounts]
    the two text areas. *)
Definition canvas_mode (enabled : bool) (categories amounts : string) : M unit :=
  if negb enabled then ret tt
  else
    st_markdown (JStr "### Canvas Mode Activated") ;;;
    st_markdown (JStr "You can now add custom data points to visualize with charts.") ;;;
    if String.eqb categories "" || String.eqb amounts "" then ret tt
    else
      try_except
        (let cats := map py_strip (split_on ","%char categories) in
         let amts := map py_strip (split_on ","%char amounts) in
         fs <- lift (map_float amts) ;;
         if Nat.eqb (length cats) (length fs) then
           let df := combine (map (fun c => CJ (JStr c)) cats) (map CF fs) in
           fig <- lift (px_chart Bar df (JStr "Custom Financial Chart")) ;;
           st_plotly_chart fig
         else st_error CanvasCountMismatch)
        (fun e => match e with
                  | ValueError => st_error (CanvasValueError e)
                  | _ => raise e
                  end).

(* ------------------------------------------------------------------ *)
(** ** Script runs *)

(** One user interaction with the page, as the script handles it. *)
Inductive action : Type :=
| ShowHistory (th : theme)                      (** lines 143-148 *)
| ChatTurn (th : theme) (post : list message -> result response)
           (prompt : option string)            (** lines 151-184 *)
| ClearHistory                                  (** lines 189-191 *)
| Canvas (enabled : bool) (categories amounts : string). (** lines 209-242 *)

Section Script.

Variable loads : string -> option json.
Variable frame_dict : json -> json -> result (list (json * json)).

Definition run_action (a : action) : M unit :=
  match a with
  | ShowHistory th => display_history loads frame_dict th
  | ChatTurn th post p => chat_turn loads frame_dict th post p
  | ClearHistory => clear_chat_history
  | Canvas en c am => canvas_mode en c am
  end.

(** Session after a sequence of actions; an uncaught exception ends the
    script run but the session state is kept. *)
Fixpoint run_actions (acts : list action) (s : session) : session :=
  match acts with
  | [] => s
  | a :: r => run_actions r (snd (run_action a s))
  end.

End Script.

(** Instances used for concrete runs: the decoder above, and dict-valued
    columns (never reached in those runs) rejected. *)
Definition frame_dict_rejected (_ _ : json) : result (list (json * json)) := Err ValueError.

Definition visualize (th : theme) (text : string) (s : session) : result bool * session :=
  create_visualization json_loads frame_dict_rejected th (JStr text) s.

(* ------------------------------------------------------------------ *)
(** ** The whole script (lines 1-242)

    One run of the script from top to bottom, as Streamlit performs it
    after every interaction.  The values of the widgets are the inputs
    of the run; [st.session_state] and the requests already sent persist
    from run to run, while the page is drawn afresh.  Not modelled:
    [st.set_page_config] (page metadata), the [with st.chat_message(...)]
    and [with st.sidebar] blocks (they only place the output), and the
    widgets themselves, which draw nothing else. *)

(** Line 15. *)
Definition page_style : string :=
  String.concat newline
    [ "";
      "    <style>";
      "    .title {";
      "        text-align: center;";
      "        font-size: 40px;";
      "        font-weight: bold;";
      "        color: #4CAF50;";
      "    }";
      "    .subtitle {";
      "        text-align: center;";
      "        font-size: 18px;";
      "        font-weight: 400;";
      "        color: #777;";
      "    }";
      "    .section-title {";
      "        color: #333;";
      "        font-size: 24px;";
      "        font-weight: bold;";
      "    }";
      "    </style>";
      "    " ].

(** Line 38. *)
Definition title_html : string :=
  dq "<p class='title'>X Analyzer: Financial Assistant Chatbot</p>".

(** Line 39. *)
Definition subtitle_html : string :=
  dq "<p class='subtitle'>Providing financial insights and visual analysis for smarter decisions.</p>".

(** Line 46. *)
Definition day_style : string :=
  String.concat newline
    [ "";
      "        <style>";
      "        body {";
      "            background-color: #f4f4f9;";
      "            color: #333;";
      "        }";
      "        .title {";
      "            color: #4CAF50;";
      "        }";
      "        .subtitle {";
      "            color: #777;";
      "        }";
      "        </style>";
      "        " ].

(** Line 63. *)
Definition night_style : string :=
  String.concat newline
    [ "";
      "        <style>";
      "        body {";
      "            background-color: #2C2C2C;";
      "            color: white;";
      "        }";
      "        .title {";
      "            color: #ff9800;";
      "        }";
      "        .subtitle {";
      "            color: #ccc;";
      "        }";
      "        </style>";
      "        " ].

(** Line 85. *)
Definition key_prompt : string :=
  "Please enter your Groq API key in the sidebar to start chatting.".

(** Line 195. *)
Definition examples_text : string :=
  dq (String.concat newline
    [ "";
      "    Try these prompts:";
      "    - 'I spend $500 on rent, $300 on groceries, $150 on utilities, $100 on entertainment'";
      "    - 'My monthly income is $3000 from salary, $500 from freelance'";
      "    - 'Show my investment portfolio: $5000 in stocks, $3000 in bonds, $2000 in crypto'";
      "    " ]).

(** Line 204. *)
Definition about_text : string :=
  String.concat newline
    [ "";
      "    **X Analyzer** is a powerful financial assistant chatbot designed to assist you with budgeting, saving, investing, and analyzing financial data.";
      "    The chatbot provides clear insights and actionable advice based on your financial information.";
      "    " ].

(** Lines 44-77: the style block chosen by the theme. *)
Definition theme_style (th : theme) : string :=
  match th with DayMode => day_style | NightMode => night_style end.

(** What a run writes on the page. *)
Inductive page_item : Type :=
| PMarkdown (text : string)          (** [st.markdown] of a fixed text *)
| PHeader (text : string)            (** [st.header] *)
| PInfo (text : string)              (** [st.info] *)
| POut (u : ui_event).               (** output of the parts modelled above *)

(** [st.session_state] between runs, and the requests sent so far. *)
Record app_state : Type := mkApp {
  has_groq_client : bool;               (** ["groq_client" in st.session_state] *)
  groq_client_api_key : option string;  (** [st.session_state.groq_client_api_key] *)
  ss_messages : option (list message);  (** [st.session_state.messages], when set *)
  ss_sent : list (list message)         (** message lists posted to the endpoint *)
}.

(** A new browser session: nothing stored yet. *)
Definition fresh_app : app_state := mkApp false None None [].

(** Values the widgets return in a run. *)
Record inputs : Type := mkInputs {
  in_theme : theme;              (** [st.selectbox("Choose Theme", ...)] *)
  in_api_key : string;           (** [st.sidebar.text_input("Enter your Groq API Key:", ...)] *)
  in_prompt : option string;     (** [st.chat_input(...)] *)
  in_clear : bool;               (** [st.button("Clear Chat History")] *)
  in_canvas : bool;              (** [st.checkbox("Enable Canvas Mode")] *)
  in_categories : string;        (** the two [st.text_area]s *)
  in_amounts : string
}.

(** How a run ends. *)
Inductive run_end : Type :=
| Finished
| Stopped                (** [st.stop()] *)
| Rerun                  (** [st.rerun()] *)
| Crashed (e : py_exn).  (** an exception that nothing catches *)

Inductive step (A : Type) : Type :=
| Go (a : A)
| Halt (r : run_end).
Arguments Go {A} a.
Arguments Halt {A} r.

(** Script-level computations: state passing over the session state and
    the page of the run, with early exits. *)
Definition SM (A : Type) : Type :=
  app_state * list page_item -> step A * (app_state * list page_item).

Definition sret {A} (a : A) : SM A := fun p => (Go a, p).

Definition sbind {A B} (m : SM A) (k : A -> SM B) : SM B :=
  fun p => match m p with
           | (Go a, p') => k a p'
           | (Halt r, p') => (Halt r, p')
           end.

Notation "x <<- m ;; k" := (sbind m (fun x => k))
  (at level 61, m at next level, right associativity).
Notation "m >>> k" := (sbind m (fun _ => k))
  (at level 61, right associativity).

Definition halt {A} (r : run_end) : SM A := fun p => (Halt r, p).

Definition show (it : page_item) : SM unit :=
  fun p => (Go tt, (fst p, snd p ++ [it])).

Definition get_app : SM app_state := fun p => (Go (fst p), p).

Definition put_app (a : app_state) : SM unit := fun p => (Go tt, (a, snd p)).

(** [st.session_state.groq_client_api_key = api_key] *)
Definition set_api_key (k : string) : SM unit :=
  a <<- get_app ;;
  put_app (mkApp (has_groq_client a) (Some k) (ss_messages a) (ss_sent a)).

(** [st.session_state.messages = [...]] *)
Definition init_messages (l : list message) : SM unit :=
  a <<- get_app ;;
  put_app (mkApp (has_groq_client a) (groq_client_api_key a) (Some l) (ss_sent a)).

(** Runs a part modelled in [M] on [st.session_state.messages]; reading
    the attribute before it is set raises [AttributeError]. *)
Definition embed {A} (m : M A) : SM A :=
  fun p =>
    let (a, pg) := p in
    match ss_messages a with
    | None => (Halt (Crashed AttributeError), p)
    | Some l =>
        let (r, s) := m (mkSession l [] (ss_sent a)) in
        (match r with Ok x => Go x | Err e => Halt (Crashed e) end,
         (mkApp (has_groq_client a) (groq_client_api_key a) (Some (messages s)) (sent s),
          pg ++ map POut (page s)))
    end.

(** Lines 151-184 when [st.session_state.groq_client_api_key] is not
    set: building the headers raises [AttributeError] inside the [try]. *)
Definition chat_turn_keyless (prompt : option string) : M unit :=
  match prompt with
  | None => ret tt
  | Some p =>
      if String.eqb p "" then ret tt
      else
        append_message (mkMessage User (JStr p)) ;;;
        st_markdown (JStr p) ;;;
        try_except (raise AttributeError) (fun e => st_error (ApiError e))
  end.

Section Run.

Variable loads : string -> option json.
Variable frame_dict : json -> json -> result (list (json * json)).

(** The endpoint, given the value of the [Authorization] header. *)
Variable api : string -> list message -> result response.

(** Lines 151-184, with the headers of lines 158-161. *)
Definition chat_step (th : theme) (prompt : option string) : SM unit :=
  a <<- get_app ;;
  match groq_client_api_key a with
  | Some k => embed (chat_turn loads frame_dict th (api (String.append "Bearer " k)) prompt)
  | None => embed (chat_turn_keyless prompt)
  end.

(** Lines 11-242. *)
Definition script (inp : inputs) : SM unit :=
  let th := in_theme inp in
  show (PMarkdown page_style) >>>
  show (PMarkdown title_html) >>>
  show (PMarkdown subtitle_html) >>>
  show (PMarkdown (theme_style th)) >>>
  a <<- get_app ;;
  (if has_groq_client a then sret tt
   else if String.eqb (in_api_key inp) "" then show (PInfo key_prompt) >>> halt Stopped
   else set_api_key (in_api_key inp)) >>>
  a <<- get_app ;;
  (match ss_messages a with
   | Some _ => sret tt
   | None => init_messages [system_preamble]
   end) >>>
  embed (display_history loads frame_dict th) >>>
  chat_step th (in_prompt inp) >>>
  show (PHeader "Options") >>>
  (if in_clear inp then embed clear_chat_history >>> halt Rerun else sret tt) >>>
  show (PMarkdown "---") >>>
  show (PMarkdown "### 📊 Visualization Examples") >>>
  show (PMarkdown examples_text) >>>
  show (PMarkdown "---") >>>
  show (PMarkdown "### About") >>>
  show (PMarkdown about_text) >>>
  embed (canvas_mode (in_canvas inp) (in_categories inp) (in_amounts inp)).

(** One run: how it ended, the session state after it, and its page. *)
Definition run_script (inp : inputs) (a : app_state) : run_end * app_state * list page_item :=
  match script inp (a, []) with
  | (Go _, (a', pg)) => (Finished, a', pg)
  | (Halt r, (a', pg)) => (r, a', pg)
  end.

(** In the run that [st.rerun()] starts, the button reads [False] and
    the chat input [None]; the other widgets keep their values. *)
Definition rerun_inputs (inp : inputs) : inputs :=
  mkInputs (in_theme inp) (in_api_key inp) None false
           (in_canvas inp) (in_categories inp) (in_amounts inp).

(** One interaction: the run it triggers, and the rerun it requests. *)
Definition interact (inp : inputs) (a : app_state) : run_end * app_state * list page_item :=
  match run_script inp a with
  | (Rerun, a', _) => run_script (rerun_inputs inp) a'
  | r => r
  end.

Definition app_after (inp : inputs) (a : app_state) : app_state :=
  snd (fst (interact inp a)).

(** The session state after a sequence of interactions. *)
Fixpoint interactions (l : list inputs) (a : app_state) : app_state :=
  match l with
  | [] => a
  | inp :: r => interactions r (app_after inp a)
  end.

End Run.

(* ------------------------------------------------------------------ *)
(** ** Notions used in the statements *)

(** [i] is the position of the first [c] in [t]; [j] of the last one. *)
Definition first_index (c : ascii) (t : string) (i : nat) : Prop :=
  String.get i t = Some c /\ forall k, k < i -> String.get k t <> Some c.

Definition last_index (c : ascii) (t : string) (j : nat) : Prop :=
  String.get j t = Some c /\ forall k, j < k -> String.get k t <> Some c.

(** The chart the specification describes for a decoded object: type
    pie or line when named so, bar otherwise; title given or
    "Financial Analysis". *)
Definition spec_title (fields : list (string * json)) : json :=
  match dict_lookup fields "title" with Some t => t | None => JStr "Financial Analysis" end.

Definition spec_kind (fields : list (string * json)) : chart_kind :=
  match dict_lookup fields "chart_type" with
  | Some (JStr x) => if String.eqb x "pie" then Pie else if String.eqb x "line" then Line else Bar
  | _ => Bar
  end.

Definition title_is_text (fields : list (string * json)) : Prop :=
  match dict_lookup fields "title" with None | Some (JStr _) => True | _ => False end.

Definition spec_figure (th : theme) (fields : list (string * json)) (l v : list json) : figure :=
  let t := spec_title fields in
  mkFigure (spec_kind fields) (if truthy t then Some t else None)
           (map (fun p => (CJ (fst p), CJ (snd p))) (combine l v))
           (match spec_kind fields with Line => true | _ => false end)
           (template_of th) (Some ("Category", "Amount")) (Some 24).

(** Texts used in the concrete runs below. *)
Definition txt_unequal : string := dq "{'data': {'labels': ['A'], 'values': []}}".
Definition txt_words : string := dq "Summary: {'data': {'labels': ['Rent'], 'values': ['high']}}".
Definition txt_broken : string := dq "Here is a chart: {'chart_type': 'pie', 'data': oops} done".
Definition txt_empty_lists : string := dq "{'data': {'labels': [], 'values': []}}".
Definition txt_list_title : string := dq "{'title': ['x'], 'data': {'labels': [], 'values': []}}".
Definition txt_title_only : string := dq "Note {'title': 'T'}".

(** [m] only writes to the page: messages and requests are unchanged. *)
Definition page_only {A} (m : M A) : Prop :=
  forall s, messages (snd (m s)) = messages s /\ sent (snd (m s)) = sent s.

Definition not_system (m : message) : Prop := role m <> System.

(** [m] can only add user or assistant messages at the end of the log. *)
Definition appends_only {A} (m : M A) : Prop :=
  forall s, exists added, messages (snd (m s)) = messages s ++ added /\ Forall not_system added.

(** The log holds the system preamble first and no other system message. *)
Definition well_formed_log (l : list message) : Prop :=
  exists h, l = system_preamble :: h /\ Forall not_system h.

Definition user_msg (p : string) : message := mkMessage User (JStr p).

(** [response_data['choices'][0]['message']['content']] *)
Definition reply_content (d : json) : result json :=
  match py_getitem_str d "choices" with
  | Ok c0 =>
      match py_getitem_int c0 0 with
      | Ok c1 =>
          match py_getitem_str c1 "message" with
          | Ok c2 => py_getitem_str c2 "content"
          | Err e => Err e
          end
      | Err e => Err e
      end
  | Err e => Err e
  end.

(** The session after the user message is appended and shown. *)
Definition after_prompt (s : session) (p : string) : session :=
  mkSession (messages s ++ [user_msg p]) (page s ++ [UMarkdown (JStr p)]) (sent s).

Definition body_null_content : string := dq "{'choices': [{'message': {'content': null}}]}".

Definition canvas_header : list ui_event :=
  [UMarkdown (JStr "### Canvas Mode Activated");
   UMarkdown (JStr "You can now add custom data points to visualize with charts.")].

Definition body_ok : string := dq "{'choices': [{'message': {'content': 'Save 20%'}}]}".

(** What [create_visualization] writes on the page for a reply text;
    by [create_visualization_output] below it does not depend on the
    session it runs in. *)
Definition viz_events (loads : string -> option json)
    (frame_dict : json -> json -> result (list (json * json))) (th : theme) (c : json)
    : list ui_event :=
  page (snd (create_visualization loads frame_dict th c (mkSession [] [] []))).

(** What the history display writes for a list of messages: each
    content, then the chart output for assistant messages. *)
Definition history_events (loads : string -> option json)
    (frame_dict : json -> json -> result (list (json * json))) (th : theme)
    (l : list message) : list ui_event :=
  flat_map (fun m => UMarkdown (content m) ::
                     match role m with
                     | Assistant => viz_events loads frame_dict th (content m)
                     | _ => []
                     end) l.

(** What canvas mode writes on the page. *)
Definition canvas_events (en : bool) (cats amts : string) : list ui_event :=
  page (snd (canvas_mode en cats amts (mkSession [] [] []))).

(** The error line of a turn whose status is not 200 (line 182, or line
    184 when [response.json()] or [.get] raises). *)
Definition status_error (loads : string -> option json) (r : response) : error_msg :=
  match loads (body r) with
  | None => ApiError JSONDecodeError
  | Some (JObj fs) =>
      ApiStatus (status_code r)
        (match dict_lookup fs "error" with Some v => v | None => JStr "Unknown error" end)
  | Some _ => ApiError AttributeError
  end.

(** Charts drawn by [create_visualization] carry the theme's template,
    the axis titles and the title font size of [update_layout]. *)
Definition themed (th : theme) (u : ui_event) : Prop :=
  match u with
  | UChart f => fig_template f = template_of th /\ fig_axis_titles f = Some ("Category", "Amount")
                /\ fig_title_size f = Some 24
  | _ => True
  end.

(** The canvas chart: a bar chart titled "Custom Financial Chart", as
    plotly express makes it (default template, axes titled with the
    column names, title font size not set). *)
Definition canvas_styled (u : ui_event) : Prop :=
  match u with
  | UChart f => fig_kind f = Bar /\ fig_title f = Some (JStr "Custom Financial Chart")
                /\ fig_template f = PlotlyDefault
                /\ fig_axis_titles f = Some ("Category", "Amount") /\ fig_title_size f = None
  | _ => True
  end.

(** Number of occurrences of [c] in [s]. *)
Fixpoint count_char (c : ascii) (s : string) : nat :=
  match s with
  | EmptyString => 0
  | String d r => (if Ascii.eqb c d then 1 else 0) + count_char c r
  end.

Definition canvas_chart (cats : string) (fs : list pyfloat) : ui_event :=
  UChart (mkFigure Bar (Some (JStr "Custom Financial Chart"))
            (combine (map (fun c => CJ (JStr c)) (map py_strip (split_on ","%char cats)))
                     (map CF fs))
            false PlotlyDefault (Some ("Category", "Amount")) None).

(** The fixed part of the page above the key check, and the sidebar
    text below the button. *)
Definition head_items (th : theme) : list page_item :=
  [PMarkdown page_style; PMarkdown title_html; PMarkdown subtitle_html;
   PMarkdown (theme_style th)].

Definition sidebar_items : list page_item :=
  [PMarkdown "---"; PMarkdown "### 📊 Visualization Examples"; PMarkdown examples_text;
   PMarkdown "---"; PMarkdown "### About"; PMarkdown about_text].

(** The log, once set, is well formed. *)
Definition log_ok (o : option (list message)) : Prop :=
  match o with None => True | Some l => well_formed_log l end.

(** A message list posted to the endpoint: the preamble, user and
    assistant messages, and the new (non-empty) prompt last. *)
Definition request_ok (ms : list message) : Prop :=
  exists h p, ms = system_preamble :: h ++ [user_msg p] /\ Forall not_system h /\ p <> "".

(** [m] returns [r] and appends [ev] to the page, whatever the session. *)
Definition pure_output {A} (m : M A) : Prop :=
  exists r ev, forall s, m s = (r, mkSession (messages s) (page s ++ ev) (sent s)).

(** Every event [m] writes on the page satisfies [P]. *)
Definition emits_only {A} (P : ui_event -> Prop) (m : M A) : Prop :=
  forall s, exists ev, page (snd (m s)) = page s ++ ev /\ Forall P ev.

(** [m] keeps the property [Q] of the session state. *)
Definition sm_keeps {A} (Q : app_state -> Prop) (m : SM A) : Prop :=
  forall a pg, Q a -> Q (fst (snd (m (a, pg)))).

(** [m] keeps the log well formed and only posts well-formed requests. *)
Definition log_step {A} (m : M A) : Prop :=
  forall s, well_formed_log (messages s) ->
  well_formed_log (messages (snd (m s))) /\
  exists extra, sent (snd (m s)) = sent s ++ extra /\ Forall request_ok extra.

(** The invariant of the session state across runs. *)
Definition app_ok (a : app_state) : Prop :=
  log_ok (ss_messages a) /\ Forall request_ok (ss_sent a).

(** Inputs of the concrete runs below. *)
Definition endpoint_down (_ : string) (_ : list message) : result response := Err RequestException.
Definition post_down (_ : list message) : result response := Err RequestException.
Definition body_bad_key : string := dq "{'error': {'message': 'Invalid API Key'}}".
Definition txt_data_string : string := dq "{'data': 'labels and values'}".

(** "500, " then U+0661 U+0662 (Arabic-Indic digits one and two), and
    "500," then U+00A0 (no-break space), as UTF-8 bytes. *)
Definition amounts_arabic : string :=
  String.append "500, " (string_of_list_ascii (map ascii_of_nat [217; 161; 217; 162])).
Definition amounts_nbsp : string :=
  String.append "500," (string_of_list_ascii (map ascii_of_nat [194; 160])).

(* ================================================================== *)
(** * Properties *)

(** ** Searching for a brace *)

Lemma find_char_some c t i :
  find_char c t = Some i -> first_index c t i.
Proof.
  revert i; induction t as [|d r IH]; intros i H; simpl in H; [discriminate|].
  destruct (Ascii.eqb c d) eqn:E.
  - apply Ascii.eqb_eq in E; subst d. injection H as <-.
    split; [reflexivity | intros k Hk; lia].
  - destruct (find_char c r) as [i'|] eqn:F; [|discriminate].
    injection H as <-. destruct (IH i' eq_refl) as [H1 H2].
    split; [exact H1|].
    intros [|k] Hk; simpl.
    + intros Hc; injection Hc as ->. rewrite Ascii.eqb_refl in E; discriminate.
    + apply H2; lia.
Qed.

Lemma find_char_none c t :
  find_char c t = None -> forall k, String.get k t <> Some c.
Proof.
  induction t as [|d r IH]; intros H k; simpl in *; [destruct k; discriminate|].
  destruct (Ascii.eqb c d) eqn:E; [discriminate|].
  destruct (find_char c r); [discriminate|].
  destruct k as [|k]; simpl.
  - intros Hc; injection Hc as ->. rewrite Ascii.eqb_refl in E; discriminate.
  - apply IH; reflexivity.
Qed.

Lemma rfind_char_none c t :
  rfind_char c t = None -> forall k, String.get k t <> Some c.
Proof.
  induction t as [|d r IH]; intros H k; simpl in *; [destruct k; discriminate|].
  destruct (rfind_char c r); [discriminate|].
  destruct (Ascii.eqb c d) eqn:E; [discriminate|].
  destruct k as [|k]; simpl.
  - intros Hc; injection Hc as ->. rewrite Ascii.eqb_refl in E; discriminate.
  - apply IH; reflexivity.
Qed.

Lemma rfind_char_some c t j :
  rfind_char c t = Some j -> last_index c t j.
Proof.
  revert j; induction t as [|d r IH]; intros j H; simpl in H; [discriminate|].
  destruct (rfind_char c r) as [j'|] eqn:F.
  - injection H as <-. destruct (IH j' eq_refl) as [H1 H2].
    split; [exact H1|]. intros [|k] Hk; [lia|]. apply H2; lia.
  - destruct (Ascii.eqb c d) eqn:E; [|discriminate].
    apply Ascii.eqb_eq in E; subst d. injection H as <-.
    split; [reflexivity|]. intros [|k] Hk; [lia|].
    exact (rfind_char_none c r F k).
Qed.

Lemma first_index_unique c t i i' :
  first_index c t i -> first_index c t i' -> i = i'.
Proof.
  intros [H1 H2] [H1' H2'].
  destruct (Nat.lt_trichotomy i i') as [Hl|[He|Hl]]; auto.
  - exfalso; exact (H2' i Hl H1).
  - exfalso; exact (H2 i' Hl H1').
Qed.

Lemma last_index_unique c t j j' :
  last_index c t j -> last_index c t j' -> j = j'.
Proof.
  intros [H1 H2] [H1' H2'].
  destruct (Nat.lt_trichotomy j j') as [Hl|[He|Hl]]; auto.
  - exfalso; exact (H2 j' Hl H1').
  - exfalso; exact (H2' j Hl H1).
Qed.

Lemma find_char_first c t i :
  first_index c t i -> find_char c t = Some i.
Proof.
  intros Hi. destruct (find_char c t) as [i'|] eqn:F.
  - f_equal. eapply first_index_unique; [apply find_char_some; exact F | exact Hi].
  - exfalso. exact (find_char_none c t F i (proj1 Hi)).
Qed.

Lemma rfind_char_last c t j :
  last_index c t j -> rfind_char c t = Some j.
Proof.
  intros Hj. destruct (rfind_char c t) as [j'|] eqn:F.
  - f_equal. eapply last_index_unique; [apply rfind_char_some; exact F | exact Hj].
  - exfalso. exact (rfind_char_none c t F j (proj1 Hj)).
Qed.

(** ** Locating the chart payload *)

Lemma visualization_no_span loads frame_dict th t s :
  (forall k, String.get k t <> Some "{"%char) \/
  (exists i, first_index "{" t i /\ forall k, i < k -> String.get k t <> Some "}"%char) ->
  create_visualization loads frame_dict th (JStr t) s = (Ok false, s).
Proof.
  intros H. unfold create_visualization, guarded, try_except, visualization_body, py_find, py_rfind.
  destruct H as [Hno | (i & Hi & Hafter)].
  - destruct (find_char "{" t) as [i|] eqn:F.
    + exfalso. exact (Hno i (proj1 (find_char_some _ _ _ F))).
    + reflexivity.
  - rewrite (find_char_first _ _ _ Hi).
    destruct (rfind_char "}" t) as [j|] eqn:R.
    + destruct (rfind_char_some _ _ _ R) as [Hj _].
      assert (j < i).
      { destruct (Nat.lt_trichotomy i j) as [Hl|[He|Hl]]; auto.
        - exfalso; exact (Hafter j Hl Hj).
        - subst j. rewrite (proj1 Hi) in Hj. discriminate. }
      replace (negb (Z.of_nat i =? -1)%Z && (Z.of_nat i <? Z.of_nat j + 1)%Z) with false
        by (symmetry; apply andb_false_iff; right; apply Z.ltb_ge; lia).
      reflexivity.
    + replace (negb (Z.of_nat i =? -1)%Z && (Z.of_nat i <? -1 + 1)%Z) with false
        by (symmetry; apply andb_false_iff; right; apply Z.ltb_ge; lia).
      reflexivity.
Qed.

Lemma visualization_span loads frame_dict th t s i j :
  first_index "{" t i -> last_index "}" t j -> i < j ->
  create_visualization loads frame_dict th (JStr t) s
  = guarded (decode_and_chart loads frame_dict th (substring i (S j - i) t)) s.
Proof.
  intros Hi Hj Hij.
  unfold create_visualization, visualization_body, py_find, py_rfind.
  rewrite (find_char_first _ _ _ Hi), (rfind_char_last _ _ _ Hj).
  replace (negb (Z.of_nat i =? -1)%Z && (Z.of_nat i <? Z.of_nat j + 1)%Z) with true
    by (symmetry; apply andb_true_iff; split;
        [apply negb_true_iff, Z.eqb_neq; lia | apply Z.ltb_lt; lia]).
  unfold py_slice.
  replace (Z.to_nat (Z.of_nat j + 1 - Z.of_nat i)) with (S j - i) by lia.
  rewrite Nat2Z.id. reflexivity.
Qed.

(** C1. [create_visualization] returns [False] without any other effect
    when the text has no ['{'], or no ['}'] after its first ['{'];
    otherwise it decodes exactly the substring from the first ['{'] to
    the last ['}'] inclusive and goes on with that decoded value only. *)
Theorem C1_outer_brace_span loads frame_dict th t s :
  ((forall k, String.get k t <> Some "{"%char) \/
   (exists i, first_index "{" t i /\ forall k, i < k -> String.get k t <> Some "}"%char) ->
   create_visualization loads frame_dict th (JStr t) s = (Ok false, s))
  /\
  (forall i j, first_index "{" t i -> last_index "}" t j -> i < j ->
   create_visualization loads frame_dict th (JStr t) s
   = guarded (decode_and_chart loads frame_dict th (substring i (S j - i) t)) s).
Proof.
  split.
  - apply visualization_no_span.
  - intros i j; apply visualization_span.
Qed.

(** ** From the decoded object to a chart *)

Lemma dict_lookup_key fs k v :
  dict_lookup fs k = Some v -> existsb (fun kv => String.eqb (fst kv) k) fs = true.
Proof.
  unfold dict_lookup. destruct (find _ (rev fs)) as [[k' v']|] eqn:F; [|discriminate].
  intros _. apply find_some in F as [Hin Hk].
  apply existsb_exists. exists (k', v'). split; [apply in_rev; exact Hin | exact Hk].
Qed.

Lemma dict_lookup_no_key fs k :
  dict_lookup fs k = None -> existsb (fun kv => String.eqb (fst kv) k) fs = false.
Proof.
  unfold dict_lookup. destruct (find _ (rev fs)) as [[k' v']|] eqn:F; [discriminate|].
  intros _. apply not_true_iff_false. intros Hex.
  apply existsb_exists in Hex as [x [Hin Hx]].
  pose proof (find_none _ _ F x) as Hn. rewrite Hn in Hx; [discriminate|].
  rewrite <- in_rev; exact Hin.
Qed.

Lemma kind_of_default fields :
  kind_of (match dict_lookup fields "chart_type" with Some c => c | None => JStr "bar" end)
  = spec_kind fields.
Proof.
  unfold spec_kind, kind_of, json_is_str.
  destruct (dict_lookup fields "chart_type") as [[]|]; reflexivity.
Qed.

Section ChartFacts.

Variable loads : string -> option json.
Variable frame_dict : json -> json -> result (list (json * json)).

Lemma chart_of_data_lists th fields cd l v s :
  dict_lookup fields "data" = Some (JObj cd) ->
  dict_lookup cd "labels" = Some (JArr l) ->
  dict_lookup cd "values" = Some (JArr v) ->
  title_is_text fields ->
  chart_of_data frame_dict th (JObj fields) s =
  if Nat.eqb (length l) (length v)
  then (Ok true, mkSession (messages s)
                   (page s ++ [USubheader (spec_title fields); UChart (spec_figure th fields l v)])
                   (sent s))
  else (Err ValueError, s).
Proof.
  intros Hd Hl Hv Ht.
  unfold chart_of_data, bind, lift, ret, py_get, py_contains, py_getitem_str.
  rewrite Hd, (dict_lookup_key _ _ _ Hl), (dict_lookup_key _ _ _ Hv), Hl, Hv.
  unfold pd_DataFrame.
  destruct (Nat.eqb (length l) (length v)) eqn:E.
  2: destruct (dict_lookup fields "chart_type"), (dict_lookup fields "title"); reflexivity.
  pose proof (kind_of_default fields) as K.
  unfold st_subheader, emit, px_chart, px_title, st_plotly_chart, spec_figure, spec_title in *.
  unfold spec_kind, title_is_text in *.
  destruct (dict_lookup fields "chart_type") as [c|];
    destruct (dict_lookup fields "title") as [[]|]; try contradiction;
    simpl in *; rewrite ?K; try destruct (String.eqb s0 "");
    simpl; rewrite <- ?app_assoc; reflexivity.
Qed.

Lemma chart_of_data_missing th fields s :
  dict_lookup fields "data" = None \/
  (exists cd, dict_lookup fields "data" = Some (JObj cd) /\
              (dict_lookup cd "labels" = None \/ dict_lookup cd "values" = None)) ->
  chart_of_data frame_dict th (JObj fields) s = (Ok false, s).
Proof.
  intros H.
  unfold chart_of_data, bind, lift, ret, py_get, py_contains.
  destruct (dict_lookup fields "chart_type"), (dict_lookup fields "title");
  destruct H as [Hd | (cd & Hd & [Hl | Hv])]; rewrite Hd.
  all: try reflexivity.
  all: try (rewrite (dict_lookup_no_key _ _ Hl); reflexivity).
  all: rewrite (dict_lookup_no_key _ _ Hv); destruct (existsb _ cd); reflexivity.
Qed.

(** Once the span is located, the text is charted from its decoded value. *)
Lemma visualization_decoded th t s i j d :
  first_index "{" t i -> last_index "}" t j -> i < j ->
  loads (substring i (S j - i) t) = Some d ->
  create_visualization loads frame_dict th (JStr t) s = guarded (chart_of_data frame_dict th d) s.
Proof.
  intros Hi Hj Hij Hd. rewrite (visualization_span _ _ _ _ _ _ _ Hi Hj Hij).
  unfold decode_and_chart, json_loads_r. rewrite Hd. reflexivity.
Qed.

Lemma chart_of_data_bad_title th fields cd t s :
  dict_lookup fields "data" = Some (JObj cd) ->
  dict_lookup cd "labels" = Some (JArr []) ->
  dict_lookup cd "values" = Some (JArr []) ->
  dict_lookup fields "title" = Some t ->
  truthy t = true -> match t with JArr _ | JObj _ => True | _ => False end ->
  chart_of_data frame_dict th (JObj fields) s =
  (Err ValueError, mkSession (messages s) (page s ++ [USubheader t]) (sent s)).
Proof.
  intros Hd Hl Hv Ht Htr Hk.
  unfold chart_of_data, bind, lift, ret, py_get, py_contains, py_getitem_str.
  rewrite Hd, (dict_lookup_key _ _ _ Hl), (dict_lookup_key _ _ _ Hv), Hl, Hv, Ht.
  unfold pd_DataFrame, st_subheader, emit, px_chart, px_title. simpl. rewrite Htr.
  destruct t; try contradiction; destruct (dict_lookup fields "chart_type"); reflexivity.
Qed.

End ChartFacts.

(** C2 (as amended). For a text whose outer span decodes to an object:
    when its "data" is absent, or is an object lacking "labels" or
    "values", [create_visualization] returns [False] with no output;
    when "labels" and "values" are both lists and the title is absent or
    a string, a chart is produced exactly when the two lists have the
    same length (otherwise pandas' [ValueError] is shown and [False]
    returned).  The chart type is pie or line when [chart_type] is
    "pie" or "line" and bar otherwise (absent included); the title is
    "Financial Analysis" when absent. *)
Theorem C2_renderable_when_lists_match loads frame_dict th t s i j fields :
  first_index "{" t i -> last_index "}" t j -> i < j ->
  loads (substring i (S j - i) t) = Some (JObj fields) ->
  ((dict_lookup fields "data" = None \/
    (exists cd, dict_lookup fields "data" = Some (JObj cd) /\
                (dict_lookup cd "labels" = None \/ dict_lookup cd "values" = None))) ->
   create_visualization loads frame_dict th (JStr t) s = (Ok false, s))
  /\
  (forall cd l v,
   dict_lookup fields "data" = Some (JObj cd) ->
   dict_lookup cd "labels" = Some (JArr l) ->
   dict_lookup cd "values" = Some (JArr v) ->
   title_is_text fields ->
   create_visualization loads frame_dict th (JStr t) s =
   if Nat.eqb (length l) (length v)
   then (Ok true, mkSession (messages s)
                    (page s ++ [USubheader (spec_title fields); UChart (spec_figure th fields l v)])
                    (sent s))
   else (Ok false, mkSession (messages s) (page s ++ [UError (VizError ValueError)]) (sent s))).
Proof.
  intros Hi Hj Hij Hd.
  rewrite (visualization_decoded _ _ _ _ _ _ _ _ Hi Hj Hij Hd).
  split.
  - intros H. unfold guarded, try_except.
    rewrite (chart_of_data_missing _ _ _ _ H). reflexivity.
  - intros cd l v Hc Hl Hv Ht. unfold guarded, try_except.
    rewrite (chart_of_data_lists _ _ _ _ _ _ _ Hc Hl Hv Ht).
    destruct (Nat.eqb (length l) (length v)); reflexivity.
Qed.

(** C2 fails as stated: "labels" and "values" are both present, the
    span decodes, yet [create_visualization] returns [False] (pandas
    rejects columns of different lengths). *)
Lemma C2_both_keys_present_no_chart :
  json_loads (substring 0 (String.length txt_unequal) txt_unequal)
    = Some (JObj [("data", JObj [("labels", JArr [JStr "A"]); ("values", JArr [])])]) /\
  visualize DayMode txt_unequal initial_session
    = (Ok false, mkSession [system_preamble] [UError (VizError ValueError)] []).
Proof. split; vm_compute; reflexivity. Qed.

(** C5 (as amended). The entries of "values" are not type-checked:
    whatever "labels" and "values" lists of equal length the span
    decodes to (title absent or a string), a chart is produced whose
    (Category, Amount) rows pair the entries as they are. *)
Theorem C5_values_passed_through loads frame_dict th t s i j fields cd l v :
  first_index "{" t i -> last_index "}" t j -> i < j ->
  loads (substring i (S j - i) t) = Some (JObj fields) ->
  dict_lookup fields "data" = Some (JObj cd) ->
  dict_lookup cd "labels" = Some (JArr l) ->
  dict_lookup cd "values" = Some (JArr v) ->
  title_is_text fields ->
  length l = length v ->
  create_visualization loads frame_dict th (JStr t) s
  = (Ok true, mkSession (messages s)
                (page s ++ [USubheader (spec_title fields);
                            UChart (spec_figure th fields l v)])
                (sent s))
  /\ fig_rows (spec_figure th fields l v) = map (fun p => (CJ (fst p), CJ (snd p))) (combine l v).
Proof.
  intros Hi Hj Hij Hd Hc Hl Hv Ht Hlen. split; [|reflexivity].
  rewrite (visualization_decoded _ _ _ _ _ _ _ _ Hi Hj Hij Hd).
  unfold guarded, try_except.
  rewrite (chart_of_data_lists _ _ _ _ _ _ _ Hc Hl Hv Ht), Hlen, Nat.eqb_refl.
  reflexivity.
Qed.

(** C5 fails as stated: a span whose "values" holds the word "high"
    decodes, and a bar chart is produced from it. *)
Lemma C5_word_value_is_charted :
  json_loads (substring 9 (String.length txt_words - 9) txt_words)
    = Some (JObj [("data", JObj [("labels", JArr [JStr "Rent"]); ("values", JArr [JStr "high"])])]) /\
  visualize DayMode txt_words initial_session
    = (Ok true,
       mkSession [system_preamble]
         [USubheader (JStr "Financial Analysis");
          UChart (mkFigure Bar (Some (JStr "Financial Analysis"))
                    [(CJ (JStr "Rent"), CJ (JStr "high"))] false
                    PlotlyWhite (Some ("Category", "Amount")) (Some 24))]
         []).
Proof. split; vm_compute; reflexivity. Qed.

(** C6 (as amended). When the outer span does not decode,
    [create_visualization] returns [False] without raising and leaves
    the messages and the requests untouched, but it does show the error
    "Error creating visualization: ..." on the page. *)
Theorem C6_decode_failure_reported loads frame_dict th t s i j :
  first_index "{" t i -> last_index "}" t j -> i < j ->
  loads (substring i (S j - i) t) = None ->
  create_visualization loads frame_dict th (JStr t) s
  = (Ok false, mkSession (messages s) (page s ++ [UError (VizError JSONDecodeError)]) (sent s)).
Proof.
  intros Hi Hj Hij Hd. rewrite (visualization_span _ _ _ _ _ _ _ Hi Hj Hij).
  unfold guarded, decode_and_chart, json_loads_r. rewrite Hd. reflexivity.
Qed.

(** C6 fails as stated: an undecodable payload puts an error on the page. *)
Lemma C6_broken_payload_shows_error :
  json_loads (substring 17 (String.length txt_broken - 22) txt_broken) = None /\
  visualize DayMode txt_broken initial_session
    = (Ok false, mkSession [system_preamble] [UError (VizError JSONDecodeError)] []).
Proof. split; vm_compute; reflexivity. Qed.

(** C10 (as amended). Presence, not non-emptiness, decides whether the
    lists are charted: for a span decoding to an object whose "data"
    has [labels: []] and [values: []], a title absent or a string
    gives [True] and an (empty) chart; a non-empty list or object as
    title is rejected by plotly ([ValueError]): the subheader is shown,
    then the error, and [False] is returned. *)
Theorem C10_empty_lists_render loads frame_dict th t s i j fields cd :
  first_index "{" t i -> last_index "}" t j -> i < j ->
  loads (substring i (S j - i) t) = Some (JObj fields) ->
  dict_lookup fields "data" = Some (JObj cd) ->
  dict_lookup cd "labels" = Some (JArr []) ->
  dict_lookup cd "values" = Some (JArr []) ->
  (title_is_text fields ->
   create_visualization loads frame_dict th (JStr t) s
   = (Ok true, mkSession (messages s)
                 (page s ++ [USubheader (spec_title fields);
                             UChart (spec_figure th fields [] [])])
                 (sent s)))
  /\
  (forall title, dict_lookup fields "title" = Some title -> truthy title = true ->
   match title with JArr _ | JObj _ => True | _ => False end ->
   create_visualization loads frame_dict th (JStr t) s
   = (Ok false, mkSession (messages s)
                  (page s ++ [USubheader title; UError (VizError ValueError)])
                  (sent s))).
Proof.
  intros Hi Hj Hij Hd Hc Hl Hv.
  rewrite (visualization_decoded _ _ _ _ _ _ _ _ Hi Hj Hij Hd).
  unfold guarded, try_except. split.
  - intros Ht. rewrite (chart_of_data_lists _ _ _ _ _ _ _ Hc Hl Hv Ht). reflexivity.
  - intros title Ht Htr Hk.
    rewrite (chart_of_data_bad_title _ _ _ _ _ _ Hc Hl Hv Ht Htr Hk). simpl.
    unfold st_error, emit, ret, bind; simpl. rewrite <- ?app_assoc. reflexivity.
Qed.

(** C10 fails as stated: labels and values are both present and empty
    and the span decodes, yet no chart is produced, because plotly
    rejects the list given as title. *)
Lemma C10_list_title_no_chart :
  json_loads (substring 0 (String.length txt_list_title) txt_list_title)
    = Some (JObj [("title", JArr [JStr "x"]);
                  ("data", JObj [("labels", JArr []); ("values", JArr [])])]) /\
  visualize DayMode txt_list_title initial_session
    = (Ok false, mkSession [system_preamble]
                   [USubheader (JArr [JStr "x"]); UError (VizError ValueError)] []).
Proof. split; vm_compute; reflexivity. Qed.

(** ** Effects on the session *)

Lemma ret_page_only {A} (a : A) : page_only (ret a).
Proof. intros s; split; reflexivity. Qed.

Lemma raise_page_only {A} e : page_only (@raise A e).
Proof. intros s; split; reflexivity. Qed.

Lemma lift_page_only {A} (r : result A) : page_only (lift r).
Proof. intros s; split; reflexivity. Qed.

Lemma emit_page_only u : page_only (emit u).
Proof. intros s; split; reflexivity. Qed.

Lemma bind_page_only {A B} (m : M A) (k : A -> M B) :
  page_only m -> (forall a, page_only (k a)) -> page_only (bind m k).
Proof.
  intros Hm Hk s. unfold bind. specialize (Hm s).
  destruct (m s) as [[a|e] s'] eqn:E; simpl in *.
  - destruct (Hk a s') as [H1 H2]. destruct Hm as [H3 H4]. split; congruence.
  - exact Hm.
Qed.

Lemma try_except_page_only {A} (m : M A) (h : py_exn -> M A) :
  page_only m -> (forall e, page_only (h e)) -> page_only (try_except m h).
Proof.
  intros Hm Hh s. unfold try_except. specialize (Hm s).
  destruct (m s) as [[a|e] s'] eqn:E; simpl in *.
  - exact Hm.
  - destruct (Hh e s') as [H1 H2]. destruct Hm as [H3 H4]. split; congruence.
Qed.

Create HintDb page_effects.
#[export] Hint Resolve ret_page_only raise_page_only lift_page_only emit_page_only : page_effects.
#[export] Hint Unfold st_markdown st_subheader st_plotly_chart st_error : page_effects.

(** Decompose a computation built from the combinators above. *)
Ltac page_only_steps :=
  repeat match goal with
  | |- page_only (bind _ _) => apply bind_page_only; [|intros ?]
  | |- page_only (try_except _ _) => apply try_except_page_only; [|intros ?]
  | |- page_only (if ?b then _ else _) => destruct b
  | |- page_only (match ?x with _ => _ end) => destruct x
  | |- page_only (emit _) => apply emit_page_only
  | |- page_only (st_markdown _) => apply emit_page_only
  | |- page_only (st_subheader _) => apply emit_page_only
  | |- page_only (st_plotly_chart _) => apply emit_page_only
  | |- page_only (st_error _) => apply emit_page_only
  | |- page_only _ => solve [auto with page_effects]
  end.

Section Effects.

Variable loads : string -> option json.
Variable frame_dict : json -> json -> result (list (json * json)).

Lemma chart_of_data_page_only th d : page_only (chart_of_data frame_dict th d).
Proof. unfold chart_of_data. page_only_steps. Qed.

Lemma create_visualization_page_only th text :
  page_only (create_visualization loads frame_dict th text).
Proof.
  unfold create_visualization, guarded, visualization_body, decode_and_chart.
  page_only_steps; apply chart_of_data_page_only.
Qed.

Lemma canvas_mode_page_only en c a : page_only (canvas_mode en c a).
Proof. unfold canvas_mode. page_only_steps. Qed.

Lemma display_messages_page_only th l :
  page_only (display_messages loads frame_dict th l).
Proof.
  induction l as [|m r IH]; simpl; [apply ret_page_only|].
  apply bind_page_only; [apply emit_page_only|intros _].
  apply bind_page_only; [|intros _; exact IH].
  destruct (role m); try apply ret_page_only.
  apply bind_page_only; [apply create_visualization_page_only|intros _; apply ret_page_only].
Qed.

Lemma display_history_page_only th : page_only (display_history loads frame_dict th).
Proof.
  intros s. unfold display_history, bind, get_messages. simpl.
  apply display_messages_page_only.
Qed.

End Effects.

(** C9. Rendering never touches the message log: after
    [create_visualization] (any text, any theme), after the history
    display that re-renders stored replies, and after the canvas path,
    [st.session_state.messages], hence [history()] and its length, are
    exactly what they were. *)
Theorem C9_render_keeps_messages loads frame_dict th text en cats amts s :
  messages (snd (create_visualization loads frame_dict th text s)) = messages s /\
  history (snd (create_visualization loads frame_dict th text s)) = history s /\
  messages (snd (display_history loads frame_dict th s)) = messages s /\
  messages (snd (canvas_mode en cats amts s)) = messages s /\
  length (history (snd (canvas_mode en cats amts s))) = length (history s).
Proof.
  pose proof (create_visualization_page_only loads frame_dict th text s) as [H1 _].
  pose proof (display_history_page_only loads frame_dict th s) as [H2 _].
  pose proof (canvas_mode_page_only en cats amts s) as [H3 _].
  unfold history. rewrite H1, H2, H3. repeat split.
Qed.

(** ** The message log *)

Lemma page_only_appends_only {A} (m : M A) : page_only m -> appends_only m.
Proof.
  intros H s. exists []. rewrite app_nil_r. split; [apply (H s)|constructor].
Qed.

Lemma bind_appends_only {A B} (m : M A) (k : A -> M B) :
  appends_only m -> (forall a, appends_only (k a)) -> appends_only (bind m k).
Proof.
  intros Hm Hk s. unfold bind. destruct (Hm s) as [a1 [E1 F1]].
  destruct (m s) as [[a|e] s'] eqn:E; simpl in *.
  - destruct (Hk a s') as [a2 [E2 F2]]. exists (a1 ++ a2).
    rewrite E2, E1, app_assoc. split; [reflexivity|apply Forall_app; auto].
  - exists a1; auto.
Qed.

Lemma try_except_appends_only {A} (m : M A) (h : py_exn -> M A) :
  appends_only m -> (forall e, appends_only (h e)) -> appends_only (try_except m h).
Proof.
  intros Hm Hh s. unfold try_except. destruct (Hm s) as [a1 [E1 F1]].
  destruct (m s) as [[a|e] s'] eqn:E; simpl in *.
  - exists a1; auto.
  - destruct (Hh e s') as [a2 [E2 F2]]. exists (a1 ++ a2).
    rewrite E2, E1, app_assoc. split; [reflexivity|apply Forall_app; auto].
Qed.

Lemma append_message_appends_only m : not_system m -> appends_only (append_message m).
Proof. intros H s. exists [m]. split; [reflexivity|constructor; auto]. Qed.


Section Log.

Variable loads : string -> option json.
Variable frame_dict : json -> json -> result (list (json * json)).

Lemma chat_turn_appends_only th post p :
  appends_only (chat_turn loads frame_dict th post p).
Proof.
  unfold chat_turn. destruct p as [p|]; [|apply page_only_appends_only, ret_page_only].
  destruct (String.eqb p ""); [apply page_only_appends_only, ret_page_only|].
  apply bind_appends_only; [apply append_message_appends_only; discriminate|intros _].
  apply bind_appends_only; [apply page_only_appends_only, emit_page_only|intros _].
  apply try_except_appends_only; [|intros e; apply page_only_appends_only, emit_page_only].
  apply bind_appends_only.
  { intros s. exists []. rewrite app_nil_r. split; [reflexivity|constructor]. }
  intros r.
  apply bind_appends_only; [apply page_only_appends_only, lift_page_only|intros d].
  destruct (Z.eqb (status_code r) 200).
  - repeat (apply bind_appends_only; [apply page_only_appends_only, lift_page_only|intros ?]).
    apply bind_appends_only; [apply page_only_appends_only, emit_page_only|intros _].
    apply bind_appends_only;
      [apply page_only_appends_only, create_visualization_page_only|intros _].
    apply append_message_appends_only; discriminate.
  - apply page_only_appends_only.
    apply bind_page_only; [apply lift_page_only|intros ?; apply emit_page_only].
Qed.

Lemma clear_keeps_first s m h :
  messages s = m :: h -> messages (snd (clear_chat_history s)) = [m].
Proof.
  intros E. unfold clear_chat_history, bind, get_messages, lift, set_messages.
  simpl. rewrite E. reflexivity.
Qed.

Lemma run_action_log a s :
  well_formed_log (messages s) ->
  match a with
  | ClearHistory => messages (snd (run_action loads frame_dict a s)) = [system_preamble]
  | _ => exists added, messages (snd (run_action loads frame_dict a s)) = messages s ++ added
                       /\ Forall not_system added
  end.
Proof.
  intros [h [E F]]. destruct a; simpl.
  - apply page_only_appends_only, display_history_page_only.
  - apply chat_turn_appends_only.
  - exact (clear_keeps_first s _ _ E).
  - apply page_only_appends_only, canvas_mode_page_only.
Qed.

Lemma run_actions_log acts s :
  well_formed_log (messages s) -> well_formed_log (messages (run_actions loads frame_dict acts s)).
Proof.
  revert s; induction acts as [|a r IH]; intros s Hs; simpl; [exact Hs|].
  apply IH. pose proof (run_action_log a s Hs) as Ha.
  destruct Hs as [h [E F]].
  destruct a as [th|th post p| |en c am].
  3: rewrite Ha; exists []; split; [reflexivity|constructor].
  all: destruct Ha as [added [E' F']]; exists (h ++ added);
       rewrite E', E; split; [reflexivity|apply Forall_app; auto].
Qed.

End Log.

(** C3. Along any sequence of script actions from the initial session,
    element 0 of the log is the system preamble and no later message is
    a system message; every action other than "Clear Chat History" only
    adds user or assistant messages at the end; clearing leaves exactly
    the original preamble, so [history()] is empty. *)
Theorem C3_log_invariant loads frame_dict acts a :
  let s := run_actions loads frame_dict acts initial_session in
  well_formed_log (messages s) /\
  match a with
  | ClearHistory =>
      messages (snd (run_action loads frame_dict a s)) = [system_preamble] /\
      history (snd (run_action loads frame_dict a s)) = []
  | _ => exists added, messages (snd (run_action loads frame_dict a s)) = messages s ++ added
                       /\ Forall not_system added
  end.
Proof.
  intros s.
  assert (Hs : well_formed_log (messages s)).
  { apply run_actions_log. exists []. split; [reflexivity|constructor]. }
  split; [exact Hs|].
  pose proof (run_action_log loads frame_dict a s Hs) as Ha.
  destruct a; try exact Ha.
  unfold history. rewrite Ha. split; reflexivity.
Qed.

(** ** One chat turn *)

Lemma create_visualization_returns loads frame_dict th text s :
  exists b, fst (create_visualization loads frame_dict th text s) = Ok b.
Proof.
  unfold create_visualization, guarded, try_except.
  destruct (visualization_body loads frame_dict th text s) as [[b|e] s']; simpl;
    eexists; reflexivity.
Qed.

Section Turn.

Variable loads : string -> option json.
Variable frame_dict : json -> json -> result (list (json * json)).
Variable th : theme.
Variable post : list message -> result response.

Lemma chat_turn_unfold p s :
  p <> "" ->
  chat_turn loads frame_dict th post (Some p) s =
  (let s1 := after_prompt s p in
   let s2 := mkSession (messages s1) (page s1) (sent s1 ++ [messages s1]) in
   match post (messages s1) with
   | Err e => (Ok tt, mkSession (messages s2) (page s2 ++ [UError (ApiError e)]) (sent s2))
   | Ok r =>
       match loads (body r) with
       | None => (Ok tt, mkSession (messages s2) (page s2 ++ [UError (ApiError JSONDecodeError)]) (sent s2))
       | Some d =>
           if Z.eqb (status_code r) 200 then
             match reply_content d with
             | Err e => (Ok tt, mkSession (messages s2) (page s2 ++ [UError (ApiError e)]) (sent s2))
             | Ok c =>
                 let s3 := mkSession (messages s2) (page s2 ++ [UMarkdown c]) (sent s2) in
                 let s4 := snd (create_visualization loads frame_dict th c s3) in
                 (Ok tt, mkSession (messages s4 ++ [mkMessage Assistant c]) (page s4) (sent s4))
             end
           else
             match py_get d "error" (JStr "Unknown error") with
             | Ok err => (Ok tt, mkSession (messages s2) (page s2 ++ [UError (ApiStatus (status_code r) err)]) (sent s2))
             | Err e => (Ok tt, mkSession (messages s2) (page s2 ++ [UError (ApiError e)]) (sent s2))
             end
       end
   end).
Proof.
  intros Hp. unfold chat_turn. apply String.eqb_neq in Hp. rewrite Hp.
  unfold bind, append_message, st_markdown, st_error, emit, try_except, requests_post,
    lift, json_loads_r, after_prompt, reply_content, user_msg; simpl.
  destruct (post _) as [r|e]; [|reflexivity].
  destruct (loads (body r)) as [d|]; [|reflexivity].
  destruct (Z.eqb (status_code r) 200).
  - destruct (py_getitem_str d "choices") as [c0|e]; [|reflexivity].
    destruct (py_getitem_int c0 0) as [c1|e]; [|reflexivity].
    destruct (py_getitem_str c1 "message") as [c2|e]; [|reflexivity].
    destruct (py_getitem_str c2 "content") as [c|e]; [|reflexivity].
    simpl.
    match goal with |- context [create_visualization loads frame_dict th c ?s3] =>
      destruct (create_visualization_returns loads frame_dict th c s3) as [b Hb];
      destruct (create_visualization loads frame_dict th c s3) as [rb s4] end.
    simpl in Hb; subst rb. reflexivity.
  - destruct (py_get d "error" (JStr "Unknown error")); reflexivity.
Qed.

End Turn.

(** C4 (as amended). When the request raises, the body does not
    decode, the status is not 200, or [choices[0].message.content]
    cannot be read from a status-200 body, the turn ends with one error
    on the page, no assistant message, and the user's message kept in
    the log.  When the status is 200 and the content can be read, it is
    appended as the assistant message whatever its type. *)
Theorem C4_failed_turn_keeps_user_message loads frame_dict th post p s :
  p <> "" ->
  (((exists e, post (messages s ++ [user_msg p]) = Err e) \/
    (exists r, post (messages s ++ [user_msg p]) = Ok r /\ loads (body r) = None) \/
    (exists r d, post (messages s ++ [user_msg p]) = Ok r /\ loads (body r) = Some d /\
                 status_code r <> 200%Z) \/
    (exists r d e, post (messages s ++ [user_msg p]) = Ok r /\ loads (body r) = Some d /\
                   status_code r = 200%Z /\ reply_content d = Err e)) ->
   exists msg,
     chat_turn loads frame_dict th post (Some p) s =
     (Ok tt, mkSession (messages s ++ [user_msg p])
                       (page s ++ [UMarkdown (JStr p); UError msg])
                       (sent s ++ [messages s ++ [user_msg p]])))
  /\
  (forall r d c,
   post (messages s ++ [user_msg p]) = Ok r -> loads (body r) = Some d ->
   status_code r = 200%Z -> reply_content d = Ok c ->
   messages (snd (chat_turn loads frame_dict th post (Some p) s))
   = messages s ++ [user_msg p; mkMessage Assistant c]).
Proof.
  intros Hp. rewrite (chat_turn_unfold loads frame_dict th post p s Hp). simpl.
  split.
  - intros [(e & He) | [(r & Hr & Hd) | [(r & d & Hr & Hd & Hs) | (r & d & e & Hr & Hd & Hs & Hc)]]];
      rewrite ?He, ?Hr, ?Hd.
    + eexists; rewrite <- app_assoc; reflexivity.
    + eexists; rewrite <- app_assoc; reflexivity.
    + apply Z.eqb_neq in Hs. rewrite Hs.
      destruct (py_get d "error" (JStr "Unknown error"));
        eexists; rewrite <- app_assoc; reflexivity.
    + rewrite Hs, Hc. simpl. eexists; rewrite <- app_assoc; reflexivity.
  - intros r d c Hr Hd Hs Hc. rewrite Hr, Hd, Hs, Hc. simpl.
    match goal with |- context [create_visualization loads frame_dict th c ?s3] =>
      destruct (create_visualization_page_only loads frame_dict th c s3) as [Hm _] end.
    rewrite Hm. simpl. rewrite <- app_assoc. reflexivity.
Qed.

(** C4 fails as stated: a status-200 body whose content is [null] is
    malformed for the specification (no content string), yet the
    [null] reply is appended as an assistant message; the only error
    shown comes from [create_visualization]. *)
Lemma C4_null_content_is_appended :
  json_loads body_null_content = Some (JObj [("choices", JArr [JObj [("message", JObj [("content", JNull)])]])]) /\
  chat_turn json_loads frame_dict_rejected DayMode
    (fun _ => Ok (mkResponse 200 body_null_content)) (Some "Rent is 500") initial_session
  = (Ok tt,
     mkSession [system_preamble; user_msg "Rent is 500"; mkMessage Assistant JNull]
       [UMarkdown (JStr "Rent is 500"); UMarkdown JNull; UError (VizError AttributeError)]
       [[system_preamble; user_msg "Rent is 500"]]).
Proof. split; vm_compute; reflexivity. Qed.

(** C7 (as amended). Only a missing or empty submission is ignored
    (the walrus test is Python truthiness); any other text, blanks
    included, is appended as a user message and sent to the endpoint
    exactly once, with the turn ending normally. *)
Theorem C7_only_empty_prompt_ignored loads frame_dict th post s :
  chat_turn loads frame_dict th post None s = (Ok tt, s) /\
  chat_turn loads frame_dict th post (Some "") s = (Ok tt, s) /\
  (forall p, p <> "" ->
   fst (chat_turn loads frame_dict th post (Some p) s) = Ok tt /\
   (exists extra, messages (snd (chat_turn loads frame_dict th post (Some p) s))
                  = messages s ++ user_msg p :: extra) /\
   sent (snd (chat_turn loads frame_dict th post (Some p) s))
   = sent s ++ [messages s ++ [user_msg p]]).
Proof.
  split; [reflexivity|]. split; [reflexivity|].
  intros p Hp. rewrite (chat_turn_unfold loads frame_dict th post p s Hp). simpl.
  destruct (post _) as [r|e]; simpl.
  2: { split; [reflexivity|]. split; [exists []; reflexivity|reflexivity]. }
  destruct (loads (body r)) as [d|]; simpl.
  2: { split; [reflexivity|]. split; [exists []; reflexivity|reflexivity]. }
  destruct (Z.eqb (status_code r) 200).
  - destruct (reply_content d) as [c|e]; simpl.
    2: { split; [reflexivity|]. split; [exists []; reflexivity|reflexivity]. }
    match goal with |- context [create_visualization loads frame_dict th c ?s3] =>
      destruct (create_visualization_page_only loads frame_dict th c s3) as [Hm Hs] end.
    rewrite Hm, Hs. simpl. split; [reflexivity|].
    split; [|reflexivity]. exists [mkMessage Assistant c].
    rewrite <- app_assoc. reflexivity.
  - destruct (py_get d "error" (JStr "Unknown error")); simpl;
      (split; [reflexivity|]; split; [exists []; reflexivity|reflexivity]).
Qed.

(** C7 fails as stated: a blank submission is appended and sent. *)
Lemma C7_blank_prompt_is_sent :
  chat_turn json_loads frame_dict_rejected DayMode (fun _ => Err RequestException)
    (Some " ") initial_session
  = (Ok tt,
     mkSession [system_preamble; user_msg " "]
       [UMarkdown (JStr " "); UError (ApiError RequestException)]
       [[system_preamble; user_msg " "]]).
Proof. vm_compute. reflexivity. Qed.

(** ** Canvas mode *)

Lemma map_float_error l e : map_float l = Err e -> e = ValueError.
Proof.
  induction l as [|a r IH]; simpl; [discriminate|].
  destruct (py_float a); [|congruence].
  destruct (map_float r); [discriminate|]. intros H; injection H as <-; auto.
Qed.

Lemma map_float_rejects l :
  Exists (fun a => py_float a = None) l -> map_float l = Err ValueError.
Proof.
  induction 1 as [a r H|a r _ IH]; simpl.
  - rewrite H. reflexivity.
  - rewrite IH. destruct (py_float a); reflexivity.
Qed.

Lemma canvas_mode_filled cats amts s :
  cats <> "" -> amts <> "" ->
  canvas_mode true cats amts s =
  let cs := map py_strip (split_on ","%char cats) in
  let s1 := mkSession (messages s) (page s ++ canvas_header) (sent s) in
  match map_float (map py_strip (split_on ","%char amts)) with
  | Err e => (Ok tt, mkSession (messages s) (page s1 ++ [UError (CanvasValueError ValueError)]) (sent s))
  | Ok fs =>
      if Nat.eqb (length cs) (length fs)
      then (Ok tt, mkSession (messages s)
                     (page s1 ++ [UChart (mkFigure Bar (Some (JStr "Custom Financial Chart"))
                                    (combine (map (fun c => CJ (JStr c)) cs) (map CF fs))
                                    false PlotlyDefault (Some ("Category", "Amount")) None)])
                     (sent s))
      else (Ok tt, mkSession (messages s) (page s1 ++ [UError CanvasCountMismatch]) (sent s))
  end.
Proof.
  intros Hc Ha. unfold canvas_mode. apply String.eqb_neq in Hc, Ha. rewrite Hc, Ha.
  unfold bind, st_markdown, st_error, st_plotly_chart, emit, try_except, lift, ret; simpl.
  rewrite <- app_assoc. simpl.
  destruct (map_float (map py_strip (split_on ","%char amts))) as [fs|e] eqn:E.
  - destruct (Nat.eqb _ _); reflexivity.
  - rewrite (map_float_error _ _ E). reflexivity.
Qed.

(** C8. Canvas mode: categories "Rent, Food" with amounts "500, 300"
    give one bar chart with the pairs (Rent, 500) and (Food, 300) in
    that order; an amount that [float] rejects (such as "abc") gives
    the numeric-values error and no chart; numeric amounts whose count
    differs from the categories' give the count error and no chart. *)
Theorem C8_canvas_outcomes s :
  canvas_mode true "Rent, Food" "500, 300" s
  = (Ok tt, mkSession (messages s)
              (page s ++ canvas_header ++
               [UChart (mkFigure Bar (Some (JStr "Custom Financial Chart"))
                          [(CJ (JStr "Rent"), CF (PFin false 500 0));
                           (CJ (JStr "Food"), CF (PFin false 300 0))] false
                          PlotlyDefault (Some ("Category", "Amount")) None)])
              (sent s))
  /\
  (forall cats amts,
   cats <> "" -> amts <> "" ->
   Exists (fun a => py_float a = None) (map py_strip (split_on ","%char amts)) ->
   canvas_mode true cats amts s
   = (Ok tt, mkSession (messages s)
               (page s ++ canvas_header ++ [UError (CanvasValueError ValueError)]) (sent s)))
  /\
  (forall cats amts fs,
   cats <> "" -> amts <> "" ->
   map_float (map py_strip (split_on ","%char amts)) = Ok fs ->
   length (split_on ","%char cats) <> length fs ->
   canvas_mode true cats amts s
   = (Ok tt, mkSession (messages s)
               (page s ++ canvas_header ++ [UError CanvasCountMismatch]) (sent s))).
Proof.
  split; [|split].
  - rewrite canvas_mode_filled by discriminate. vm_compute map_float.
    simpl. rewrite <- app_assoc. reflexivity.
  - intros cats amts Hc Ha Hx. rewrite (canvas_mode_filled cats amts s Hc Ha).
    rewrite (map_float_rejects _ Hx). simpl. rewrite <- app_assoc. reflexivity.
  - intros cats amts fs Hc Ha Hf Hl. rewrite (canvas_mode_filled cats amts s Hc Ha), Hf.
    simpl. rewrite length_map.
    apply Nat.eqb_neq in Hl. rewrite Hl. rewrite <- app_assoc. reflexivity.
Qed.

(** ** Rendering, the chat turn and canvas mode: further properties *)

Lemma ret_pure {A} (a : A) : pure_output (ret a).
Proof. exists (Ok a), []. intros []; simpl. rewrite app_nil_r. reflexivity. Qed.

Lemma raise_pure {A} e : pure_output (@raise A e).
Proof. exists (Err e), []. intros []; simpl. rewrite app_nil_r. reflexivity. Qed.

Lemma lift_pure {A} (r : result A) : pure_output (lift r).
Proof. exists r, []. intros []; simpl. rewrite app_nil_r. reflexivity. Qed.

Lemma emit_pure u : pure_output (emit u).
Proof. exists (Ok tt), [u]. intros []; reflexivity. Qed.

Lemma bind_pure {A B} (m : M A) (k : A -> M B) :
  pure_output m -> (forall a, pure_output (k a)) -> pure_output (bind m k).
Proof.
  intros (r & ev & Hm) Hk. destruct r as [a|e].
  - destruct (Hk a) as (r2 & ev2 & H2). exists r2, (ev ++ ev2). intros s.
    unfold bind. rewrite Hm, H2. simpl. rewrite app_assoc. reflexivity.
  - exists (Err e), ev. intros s. unfold bind. rewrite Hm. reflexivity.
Qed.

Lemma try_except_pure {A} (m : M A) (h : py_exn -> M A) :
  pure_output m -> (forall e, pure_output (h e)) -> pure_output (try_except m h).
Proof.
  intros (r & ev & Hm) Hh. destruct r as [a|e].
  - exists (Ok a), ev. intros s. unfold try_except. rewrite Hm. reflexivity.
  - destruct (Hh e) as (r2 & ev2 & H2). exists r2, (ev ++ ev2). intros s.
    unfold try_except. rewrite Hm, H2. simpl. rewrite app_assoc. reflexivity.
Qed.

Ltac pure_steps :=
  repeat match goal with
  | |- pure_output (bind _ _) => apply bind_pure; [|intros ?]
  | |- pure_output (try_except _ _) => apply try_except_pure; [|intros ?]
  | |- pure_output (if ?b then _ else _) => destruct b
  | |- pure_output (match ?x with _ => _ end) => destruct x
  | |- pure_output (emit _) => apply emit_pure
  | |- pure_output (st_markdown _) => apply emit_pure
  | |- pure_output (st_subheader _) => apply emit_pure
  | |- pure_output (st_plotly_chart _) => apply emit_pure
  | |- pure_output (st_error _) => apply emit_pure
  | |- pure_output (ret _) => apply ret_pure
  | |- pure_output (raise _) => apply raise_pure
  | |- pure_output (lift _) => apply lift_pure
  end.

Lemma create_visualization_pure loads frame_dict th c :
  pure_output (create_visualization loads frame_dict th c).
Proof.
  unfold create_visualization, guarded, visualization_body, decode_and_chart, chart_of_data.
  pure_steps.
Qed.

Lemma create_visualization_output loads frame_dict th c s :
  create_visualization loads frame_dict th c s
  = (fst (create_visualization loads frame_dict th c (mkSession [] [] [])),
     mkSession (messages s) (page s ++ viz_events loads frame_dict th c) (sent s)).
Proof.
  destruct (create_visualization_pure loads frame_dict th c) as (r & ev & H).
  unfold viz_events. rewrite !H. reflexivity.
Qed.

Lemma display_messages_output loads frame_dict th l s :
  display_messages loads frame_dict th l s
  = (Ok tt, mkSession (messages s) (page s ++ history_events loads frame_dict th l) (sent s)).
Proof.
  revert s; induction l as [|m r IH]; intros s; simpl.
  - destruct s; simpl; rewrite app_nil_r; reflexivity.
  - unfold bind at 1, st_markdown, emit. simpl.
    destruct (role m).
    + unfold bind, ret. rewrite IH. simpl. rewrite <- app_assoc. reflexivity.
    + unfold bind, ret. rewrite IH. simpl. rewrite <- app_assoc. reflexivity.
    + unfold bind at 1. unfold bind at 1.
      rewrite create_visualization_output.
      destruct (create_visualization_returns loads frame_dict th (content m) (mkSession [] [] [])) as [b Hb].
      rewrite Hb. unfold ret. simpl. rewrite IH. simpl.
      rewrite <- !app_assoc. reflexivity.
Qed.

Lemma display_history_output loads frame_dict th s :
  display_history loads frame_dict th s
  = (Ok tt, mkSession (messages s)
              (page s ++ history_events loads frame_dict th (tl (messages s))) (sent s)).
Proof. apply display_messages_output. Qed.

(** The history display writes, for each message after the first, its
    content, followed by the chart output only for assistant messages;
    user messages are never charted.  It never raises and changes
    neither the log nor the requests. *)
Lemma X_history_display loads frame_dict th s :
  display_history loads frame_dict th s
  = (Ok tt, mkSession (messages s)
              (page s ++ history_events loads frame_dict th (tl (messages s))) (sent s)).
Proof. apply display_messages_output. Qed.

Lemma canvas_mode_pure en c a : pure_output (canvas_mode en c a).
Proof. unfold canvas_mode. pure_steps. Qed.

Lemma canvas_mode_ok en c a s : fst (canvas_mode en c a s) = Ok tt.
Proof.
  destruct en; [|reflexivity].
  destruct (String.eqb c "") eqn:Ec; [unfold canvas_mode; rewrite Ec; reflexivity|].
  destruct (String.eqb a "") eqn:Ea.
  { unfold canvas_mode; rewrite Ec, Ea; reflexivity. }
  apply String.eqb_neq in Ec, Ea. rewrite (canvas_mode_filled c a s Ec Ea).
  simpl. destruct (map_float _); [destruct (Nat.eqb _ _)|]; reflexivity.
Qed.

Lemma canvas_mode_output en c a s :
  canvas_mode en c a s
  = (Ok tt, mkSession (messages s) (page s ++ canvas_events en c a) (sent s)).
Proof.
  destruct (canvas_mode_pure en c a) as (r & ev & H).
  pose proof (canvas_mode_ok en c a s) as Hok.
  unfold canvas_events. rewrite !H. rewrite H in Hok. simpl in Hok. subst r. reflexivity.
Qed.

(** Splitting and stripping the canvas fields. *)
Lemma split_on_nonempty c s : split_on c s <> [].
Proof.
  destruct s as [|d r]; simpl; [discriminate|].
  destruct (Ascii.eqb d c); [discriminate|]. destruct (split_on c r); discriminate.
Qed.

Lemma split_on_length c s : length (split_on c s) = S (count_char c s).
Proof.
  induction s as [|d r IH]; simpl; [reflexivity|].
  destruct (Ascii.eqb d c) eqn:E.
  - apply Ascii.eqb_eq in E; subst. rewrite Ascii.eqb_refl. simpl. rewrite IH. reflexivity.
  - assert (Ascii.eqb c d = false) as E' by (rewrite Ascii.eqb_sym; exact E).
    rewrite E'. simpl. pose proof (split_on_nonempty c r) as Hn.
    destruct (split_on c r) as [|h t]; [contradiction|]. simpl in *. exact IH.
Qed.

Lemma map_float_length l fs : map_float l = Ok fs -> length fs = length l.
Proof.
  revert fs; induction l as [|a r IH]; intros fs H; simpl in H.
  - injection H as <-; reflexivity.
  - destruct (py_float a); [|discriminate].
    destruct (map_float r) eqn:E; [|discriminate]. injection H as <-.
    simpl. rewrite (IH _ eq_refl). reflexivity.
Qed.

(** Canvas mode, with both fields filled and every amount parsed by
    [float()]: the bar chart is drawn exactly when the two fields hold
    the same number of commas; otherwise the count error is shown. *)
Lemma X_canvas_comma_count cats amts fs s :
  cats <> "" -> amts <> "" ->
  map_float (map py_strip (split_on ","%char amts)) = Ok fs ->
  canvas_mode true cats amts s
  = (Ok tt, mkSession (messages s)
              (page s ++ canvas_header ++
               [if Nat.eqb (count_char ","%char cats) (count_char ","%char amts)
                then canvas_chart cats fs else UError CanvasCountMismatch])
              (sent s)).
Proof.
  intros Hc Ha Hf. rewrite (canvas_mode_filled cats amts s Hc Ha), Hf. simpl.
  rewrite length_map, split_on_length, (map_float_length _ _ Hf), length_map, split_on_length.
  unfold canvas_chart, canvas_header.
  destruct (Nat.eqb _ _); rewrite <- app_assoc; reflexivity.
Qed.

(** Canvas mode, with categories entered: when a comma-separated piece
    of the amounts is empty or whitespace only (its [str.strip()] is
    empty; a trailing or doubled comma, for instance), the
    numeric-values error is shown and no chart is drawn. *)
Lemma X_canvas_blank_amount cats amts s :
  cats <> "" -> amts <> "" ->
  Exists (fun piece => py_strip piece = "") (split_on ","%char amts) ->
  canvas_mode true cats amts s
  = (Ok tt, mkSession (messages s)
              (page s ++ canvas_header ++ [UError (CanvasValueError ValueError)]) (sent s)).
Proof.
  intros Hc Ha Hx. rewrite (canvas_mode_filled cats amts s Hc Ha).
  rewrite (map_float_rejects (map py_strip (split_on ","%char amts))).
  - simpl. unfold canvas_header. rewrite <- ?app_assoc. reflexivity.
  - apply Exists_map. eapply Exists_impl; [|exact Hx].
    intros p Hp. rewrite Hp. reflexivity.
Qed.

(** A turn whose response status is not 200 keeps the user message,
    appends no reply and shows one error: the status line with the
    body's "error" (or "Unknown error") when the body decodes to an
    object; otherwise the generic error of the failed decoding, or of
    [.get] on a non-object. *)
Lemma X_status_error_report loads frame_dict th post p s r :
  p <> "" ->
  post (messages s ++ [user_msg p]) = Ok r ->
  status_code r <> 200%Z ->
  chat_turn loads frame_dict th post (Some p) s
  = (Ok tt, mkSession (messages s ++ [user_msg p])
              (page s ++ [UMarkdown (JStr p); UError (status_error loads r)])
              (sent s ++ [messages s ++ [user_msg p]])).
Proof.
  intros Hp Hr Hs. rewrite (chat_turn_unfold loads frame_dict th post p s Hp). simpl.
  rewrite Hr. unfold status_error. apply Z.eqb_neq in Hs.
  destruct (loads (body r)) as [d|].
  - rewrite Hs. destruct d; simpl; rewrite <- ?app_assoc; try reflexivity.
    destruct (dict_lookup fields "error"); rewrite <- app_assoc; reflexivity.
  - rewrite <- app_assoc; reflexivity.
Qed.

(** A prompt whose turn fails (transport error, or a decodable
    non-200 response) stays in the log without a reply, and the next
    turn posts it again, followed by the new prompt. *)
Lemma X_failed_prompt_resent loads frame_dict th post1 post2 p1 p2 s :
  p1 <> "" -> p2 <> "" ->
  ((exists e, post1 (messages s ++ [user_msg p1]) = Err e) \/
   (exists r d, post1 (messages s ++ [user_msg p1]) = Ok r /\ loads (body r) = Some d /\
                status_code r <> 200%Z)) ->
  let s1 := snd (chat_turn loads frame_dict th post1 (Some p1) s) in
  messages s1 = messages s ++ [user_msg p1] /\
  sent (snd (chat_turn loads frame_dict th post2 (Some p2) s1))
  = sent s1 ++ [messages s ++ [user_msg p1; user_msg p2]].
Proof.
  intros H1 H2 Hf s1.
  assert (Hm : messages s1 = messages s ++ [user_msg p1]).
  { unfold s1. rewrite (chat_turn_unfold loads frame_dict th post1 p1 s H1). simpl.
    destruct Hf as [(e & He) | (r & d & Hr & Hd & Hs)].
    - rewrite He. reflexivity.
    - rewrite Hr, Hd. apply Z.eqb_neq in Hs. rewrite Hs.
      destruct (py_get d "error" (JStr "Unknown error")); reflexivity. }
  split; [exact Hm|].
  rewrite (chat_turn_unfold loads frame_dict th post2 p2 s1 H2). simpl.
  rewrite Hm, <- app_assoc. simpl.
  destruct (post2 _) as [r|e]; simpl; [|reflexivity].
  destruct (loads (body r)) as [d|]; simpl; [|reflexivity].
  destruct (Z.eqb (status_code r) 200).
  - destruct (reply_content d) as [c|e]; simpl; [|reflexivity].
    rewrite create_visualization_output. reflexivity.
  - destruct (py_get d "error" (JStr "Unknown error")); reflexivity.
Qed.


(** For a text with a "{" before its last "}", whose span from the first
    "{" to the last "}" decodes to an object whose "data" is present but
    not an object (string, list, number, boolean or null), no chart is
    drawn: [create_visualization] returns [False], with either nothing
    shown or a [TypeError]. *)
Lemma X_data_not_object loads frame_dict th t s i j fields cd :
  first_index "{" t i -> last_index "}" t j -> i < j ->
  loads (substring i (S j - i) t) = Some (JObj fields) ->
  dict_lookup fields "data" = Some cd -> (forall fs, cd <> JObj fs) ->
  exists ev,
    create_visualization loads frame_dict th (JStr t) s
    = (Ok false, mkSession (messages s) (page s ++ ev) (sent s)) /\
    (ev = [] \/ ev = [UError (VizError TypeError)]).
Proof.
  intros Hi Hj Hij Hl Hd Hno.
  rewrite (visualization_decoded _ _ _ _ _ _ _ _ Hi Hj Hij Hl).
  unfold guarded, try_except, chart_of_data, bind, lift, ret, py_get, st_error, emit.
  rewrite Hd.
  destruct (dict_lookup fields "chart_type"), (dict_lookup fields "title");
  destruct cd as [| | |str|items|fs]; try (exfalso; exact (Hno fs eq_refl)); simpl;
  repeat match goal with |- context [if ?b then _ else _] => destruct b; simpl end;
  first
  [ exists []; split; [destruct s; simpl; rewrite app_nil_r; reflexivity | left; reflexivity]
  | eexists; split; [reflexivity | right; reflexivity] ].
Qed.

Section Emits.

Variable P : ui_event -> Prop.

Lemma ret_emits {A} (a : A) : emits_only P (ret a).
Proof. intros s. exists []. rewrite app_nil_r. split; [reflexivity|constructor]. Qed.

Lemma raise_emits {A} e : emits_only P (@raise A e).
Proof. intros s. exists []. rewrite app_nil_r. split; [reflexivity|constructor]. Qed.

Lemma lift_emits {A} (r : result A) : emits_only P (lift r).
Proof. intros s. exists []. rewrite app_nil_r. split; [reflexivity|constructor]. Qed.

Lemma emit_emits u : P u -> emits_only P (emit u).
Proof. intros H s. exists [u]. split; [reflexivity|constructor; auto]. Qed.

Lemma bind_emits {A B} (m : M A) (k : A -> M B) :
  emits_only P m -> (forall a, emits_only P (k a)) -> emits_only P (bind m k).
Proof.
  intros Hm Hk s. unfold bind. destruct (Hm s) as [ev1 [E1 F1]].
  destruct (m s) as [[a|e] s'] eqn:E; simpl in *.
  - destruct (Hk a s') as [ev2 [E2 F2]]. exists (ev1 ++ ev2).
    rewrite E2, E1, app_assoc. split; [reflexivity|apply Forall_app; auto].
  - exists ev1; auto.
Qed.

Lemma bind_lift_emits {A B} (r : result A) (k : A -> M B) :
  (forall a, r = Ok a -> emits_only P (k a)) -> emits_only P (bind (lift r) k).
Proof.
  intros Hk s. unfold bind, lift. destruct r as [a|e].
  - apply (Hk a eq_refl).
  - exists []. rewrite app_nil_r. split; [reflexivity|constructor].
Qed.

Lemma try_except_emits {A} (m : M A) (h : py_exn -> M A) :
  emits_only P m -> (forall e, emits_only P (h e)) -> emits_only P (try_except m h).
Proof.
  intros Hm Hh s. unfold try_except. destruct (Hm s) as [ev1 [E1 F1]].
  destruct (m s) as [[a|e] s'] eqn:E; simpl in *.
  - exists ev1; auto.
  - destruct (Hh e s') as [ev2 [E2 F2]]. exists (ev1 ++ ev2).
    rewrite E2, E1, app_assoc. split; [reflexivity|apply Forall_app; auto].
Qed.

End Emits.

Ltac emits_steps :=
  repeat match goal with
  | |- emits_only _ (bind (lift _) _) => apply bind_lift_emits; intros ? ?
  | |- emits_only _ (bind _ _) => apply bind_emits; [|intros ?]
  | |- emits_only _ (try_except _ _) => apply try_except_emits; [|intros ?]
  | |- emits_only _ (if ?b then _ else _) => destruct b
  | |- emits_only _ (match ?x with _ => _ end) => destruct x
  | |- emits_only _ (st_markdown _) => apply emit_emits
  | |- emits_only _ (st_subheader _) => apply emit_emits
  | |- emits_only _ (st_plotly_chart _) => apply emit_emits
  | |- emits_only _ (st_error _) => apply emit_emits
  | |- emits_only _ (ret _) => apply ret_emits
  | |- emits_only _ (raise _) => apply raise_emits
  | |- emits_only _ (lift _) => apply lift_emits
  end.

Lemma create_visualization_themed loads frame_dict th c :
  emits_only (themed th) (create_visualization loads frame_dict th c).
Proof.
  unfold create_visualization, guarded, visualization_body, decode_and_chart, chart_of_data.
  emits_steps; solve [exact I | repeat split].
Qed.

Lemma canvas_mode_styled en cats amts :
  emits_only canvas_styled (canvas_mode en cats amts).
Proof.
  unfold canvas_mode. emits_steps; try exact I.
  match goal with H : px_chart _ _ _ = Ok _ |- _ => injection H as <- end.
  repeat split.
Qed.

(** Charts drawn from a reply carry the theme's template (plotly_dark
    at night, plotly_white by day), the axis titles Category and Amount
    and a title font of size 24; the canvas chart is a bar chart titled
    "Custom Financial Chart" with plotly's default template, its axes
    titled with the column names Category and Amount, and no title font
    size set. *)
Lemma X_chart_styles loads frame_dict th c en cats amts s :
  Forall (themed th) (viz_events loads frame_dict th c) /\
  exists ev, page (snd (canvas_mode en cats amts s)) = page s ++ ev /\ Forall canvas_styled ev.
Proof.
  split.
  - destruct (create_visualization_themed loads frame_dict th c (mkSession [] [] [])) as [ev [E F]].
    unfold viz_events. rewrite E. exact F.
  - apply canvas_mode_styled.
Qed.

Section Keeps.

Variable Q : app_state -> Prop.

Lemma sret_keeps {A} (x : A) : sm_keeps Q (sret x).
Proof. intros a pg H; exact H. Qed.

Lemma halt_keeps {A} r : sm_keeps Q (@halt A r).
Proof. intros a pg H; exact H. Qed.

Lemma show_keeps it : sm_keeps Q (show it).
Proof. intros a pg H; exact H. Qed.

Lemma get_app_keeps : sm_keeps Q get_app.
Proof. intros a pg H; exact H. Qed.

Lemma sbind_keeps {A B} (m : SM A) (k : A -> SM B) :
  sm_keeps Q m -> (forall x, sm_keeps Q (k x)) -> sm_keeps Q (sbind m k).
Proof.
  intros Hm Hk a pg H. unfold sbind. specialize (Hm a pg H).
  destruct (m (a, pg)) as [[x|r] [a' pg']]; simpl in *; [apply Hk|]; exact Hm.
Qed.

Lemma set_api_key_keeps k :
  (forall a, Q a -> Q (mkApp (has_groq_client a) (Some k) (ss_messages a) (ss_sent a))) ->
  sm_keeps Q (set_api_key k).
Proof. intros Hk a pg H. apply Hk, H. Qed.

Lemma init_messages_keeps l :
  (forall a, Q a -> Q (mkApp (has_groq_client a) (groq_client_api_key a) (Some l) (ss_sent a))) ->
  sm_keeps Q (init_messages l).
Proof. intros Hk a pg H. apply Hk, H. Qed.

Lemma embed_keeps {A} (m : M A) :
  (forall a l, Q a -> ss_messages a = Some l ->
   Q (mkApp (has_groq_client a) (groq_client_api_key a)
            (Some (messages (snd (m (mkSession l [] (ss_sent a))))))
            (sent (snd (m (mkSession l [] (ss_sent a))))))) ->
  sm_keeps Q (embed m).
Proof.
  intros Hk a pg H. unfold embed.
  destruct (ss_messages a) as [l|] eqn:E; [|exact H].
  specialize (Hk a l H E).
  destruct (m (mkSession l [] (ss_sent a))) as [r s]. exact Hk.
Qed.

End Keeps.

Ltac keeps_steps :=
  repeat match goal with
  | |- sm_keeps _ (sbind _ _) => apply sbind_keeps; [|intros ?]
  | |- sm_keeps _ (if ?b then _ else _) => destruct b
  | |- sm_keeps _ (match ?x with _ => _ end) => destruct x
  | |- sm_keeps _ (show _) => apply show_keeps
  | |- sm_keeps _ (sret _) => apply sret_keeps
  | |- sm_keeps _ (halt _) => apply halt_keeps
  | |- sm_keeps _ get_app => apply get_app_keeps
  | |- sm_keeps _ (set_api_key _) => apply set_api_key_keeps
  | |- sm_keeps _ (init_messages _) => apply init_messages_keeps
  | |- sm_keeps _ (embed _) => apply embed_keeps
  end.

Lemma interact_keeps loads frame_dict api (Q : app_state -> Prop) :
  (forall inp, sm_keeps Q (script loads frame_dict api inp)) ->
  forall l a, Q a -> Q (interactions loads frame_dict api l a).
Proof.
  intros Hs l. induction l as [|inp r IH]; intros a Ha; simpl; [exact Ha|].
  apply IH. unfold app_after, interact, run_script.
  pose proof (Hs inp a [] Ha) as H1.
  destruct (script loads frame_dict api inp (a, [])) as [[x|e] [a1 pg1]] eqn:E1; simpl in *;
    [exact H1|].
  destruct e; simpl; try exact H1.
  pose proof (Hs (rerun_inputs inp) a1 [] H1) as H2.
  destruct (script loads frame_dict api (rerun_inputs inp) (a1, [])) as [[y|e'] [a2 pg2]];
    [|destruct e']; simpl in *; exact H2.
Qed.

Lemma interactions_groq_client loads frame_dict api l :
  has_groq_client (interactions loads frame_dict api l fresh_app) = false.
Proof.
  apply (interact_keeps loads frame_dict api (fun a => has_groq_client a = false)); [|reflexivity].
  intros inp. unfold script, chat_step. keeps_steps; intros; assumption.
Qed.

(** The script never sets "groq_client", so on every run, whatever
    happened before, an empty key field shows the header, the theme
    style and the key prompt, then stops with the session state
    unchanged. *)
Lemma X_key_gate loads frame_dict api l inp :
  in_api_key inp = "" ->
  let a := interactions loads frame_dict api l fresh_app in
  interact loads frame_dict api inp a = (Stopped, a, head_items (in_theme inp) ++ [PInfo key_prompt]).
Proof.
  intros Hk a.
  pose proof (interactions_groq_client loads frame_dict api l) as Hg. fold a in Hg.
  unfold interact, run_script, script, sbind, show, get_app, halt. simpl.
  rewrite Hg, Hk. reflexivity.
Qed.

Lemma wf_append l added :
  well_formed_log l -> Forall not_system added -> well_formed_log (l ++ added).
Proof.
  intros [h [E F]] Fa. exists (h ++ added). rewrite E. split; [reflexivity|].
  apply Forall_app; auto.
Qed.

Lemma page_only_log_step {A} (m : M A) : page_only m -> log_step m.
Proof.
  intros H s Hw. destruct (H s) as [H1 H2]. rewrite H1, H2.
  split; [exact Hw|]. exists []. rewrite app_nil_r. split; [reflexivity|constructor].
Qed.

Lemma chat_turn_sent loads frame_dict th post p s :
  p <> "" ->
  sent (snd (chat_turn loads frame_dict th post (Some p) s)) = sent s ++ [messages s ++ [user_msg p]].
Proof.
  intros Hp. rewrite (chat_turn_unfold loads frame_dict th post p s Hp). simpl.
  destruct (post _) as [r|e]; simpl; [|reflexivity].
  destruct (loads (body r)) as [d|]; simpl; [|reflexivity].
  destruct (Z.eqb (status_code r) 200).
  - destruct (reply_content d) as [c|e]; simpl; [|reflexivity].
    rewrite create_visualization_output. reflexivity.
  - destruct (py_get d "error" (JStr "Unknown error")); reflexivity.
Qed.

Lemma chat_turn_log_step loads frame_dict th post prompt :
  log_step (chat_turn loads frame_dict th post prompt).
Proof.
  intros s Hw. split.
  - destruct (chat_turn_appends_only loads frame_dict th post prompt s) as [added [E F]].
    rewrite E. apply wf_append; assumption.
  - destruct prompt as [p|]; [|exists []; rewrite app_nil_r; split; [reflexivity|constructor]].
    destruct (String.eqb p "") eqn:Ep.
    { exists []. unfold chat_turn. rewrite Ep. rewrite app_nil_r. split; [reflexivity|constructor]. }
    apply String.eqb_neq in Ep.
    exists [messages s ++ [user_msg p]]. split; [apply chat_turn_sent; exact Ep|].
    constructor; [|constructor].
    destruct Hw as [h [E F]]. exists h, p. rewrite E. split; [reflexivity|]. split; assumption.
Qed.

Lemma chat_turn_keyless_log_step prompt : log_step (chat_turn_keyless prompt).
Proof.
  intros s Hw. destruct prompt as [p|];
    [|split; [exact Hw|exists []; rewrite app_nil_r; split; [reflexivity|constructor]]].
  unfold chat_turn_keyless. destruct (String.eqb p "").
  - split; [exact Hw|exists []; rewrite app_nil_r; split; [reflexivity|constructor]].
  - simpl. split.
    + apply wf_append; [exact Hw|constructor; [discriminate|constructor]].
    + exists []. rewrite app_nil_r. split; [reflexivity|constructor].
Qed.

Lemma clear_log_step : log_step clear_chat_history.
Proof.
  intros s Hw. pose proof Hw as [h [E F]].
  rewrite (clear_keeps_first s _ _ E). split.
  - exists []. split; [reflexivity|constructor].
  - exists []. unfold clear_chat_history, bind, get_messages, lift, set_messages. simpl.
    rewrite E. simpl. rewrite app_nil_r. split; [reflexivity|constructor].
Qed.

Lemma embed_app_ok {A} (m : M A) : log_step m -> sm_keeps app_ok (embed m).
Proof.
  intros Hm. apply embed_keeps. intros a l [Hl Hs] E.
  rewrite E in Hl. simpl in Hl.
  destruct (Hm (mkSession l [] (ss_sent a)) Hl) as [H1 [extra [H2 H3]]].
  split; [exact H1|]. simpl. rewrite H2. apply Forall_app; auto.
Qed.

Lemma script_app_ok loads frame_dict api inp : sm_keeps app_ok (script loads frame_dict api inp).
Proof.
  unfold script, chat_step.
  repeat match goal with
  | |- sm_keeps _ (sbind _ _) => apply sbind_keeps; [|intros ?]
  | |- sm_keeps _ (if ?b then _ else _) => destruct b
  | |- sm_keeps _ (match ?x with _ => _ end) => destruct x
  | |- sm_keeps _ (show _) => apply show_keeps
  | |- sm_keeps _ (sret _) => apply sret_keeps
  | |- sm_keeps _ (halt _) => apply halt_keeps
  | |- sm_keeps _ get_app => apply get_app_keeps
  | |- sm_keeps _ (set_api_key _) => apply set_api_key_keeps; intros ? [? ?]; split; assumption
  | |- sm_keeps _ (init_messages _) =>
      apply init_messages_keeps; intros ? [? ?]; split;
      [exists []; split; [reflexivity|constructor] | assumption]
  | |- sm_keeps _ (embed (display_history _ _ _)) =>
      apply embed_app_ok, page_only_log_step, display_history_page_only
  | |- sm_keeps _ (embed (canvas_mode _ _ _)) =>
      apply embed_app_ok, page_only_log_step, canvas_mode_page_only
  | |- sm_keeps _ (embed (chat_turn _ _ _ _ _)) => apply embed_app_ok, chat_turn_log_step
  | |- sm_keeps _ (embed (chat_turn_keyless _)) => apply embed_app_ok, chat_turn_keyless_log_step
  | |- sm_keeps _ (embed clear_chat_history) => apply embed_app_ok, clear_log_step
  end.
Qed.

Lemma interactions_app_ok loads frame_dict api l :
  app_ok (interactions loads frame_dict api l fresh_app).
Proof.
  apply interact_keeps; [apply script_app_ok|].
  split; [exact I|constructor].
Qed.

(** Across any sequence of interactions from a new session, the log,
    once set, starts with the system preamble and holds no other
    system message. *)
Lemma X_runs_log_invariant loads frame_dict api l :
  log_ok (ss_messages (interactions loads frame_dict api l fresh_app)).
Proof. apply interactions_app_ok. Qed.

(** Across any sequence of interactions from a new session, every
    message list posted to the endpoint starts with the system
    preamble, holds no other system message, and ends with the new,
    non-empty user prompt. *)
Lemma X_runs_requests_ok loads frame_dict api l :
  Forall request_ok (ss_sent (interactions loads frame_dict api l fresh_app)).
Proof. apply interactions_app_ok. Qed.

Ltac norm := cbv beta iota zeta delta [in_theme in_api_key in_prompt in_clear in_canvas
  in_categories in_amounts has_groq_client groq_client_api_key ss_messages ss_sent].

Lemma sbind_show {B} it (k : unit -> SM B) a pg :
  sbind (show it) k (a, pg) = k tt (a, pg ++ [it]).
Proof. reflexivity. Qed.

Lemma sbind_get_app {B} (k : app_state -> SM B) a pg :
  sbind get_app k (a, pg) = k a (a, pg).
Proof. reflexivity. Qed.

Lemma sbind_assoc {A B C} (m : SM A) (k1 : A -> SM B) (k2 : B -> SM C) p :
  sbind (sbind m k1) k2 p = sbind m (fun x => sbind (k1 x) k2) p.
Proof. unfold sbind. destruct (m p) as [[x|r] p']; reflexivity. Qed.

Lemma sbind_sret {A B} (x : A) (k : A -> SM B) p : sbind (sret x) k p = k x p.
Proof. reflexivity. Qed.

Lemma sbind_halt {A B} r (k : A -> SM B) p : sbind (halt r) k p = (Halt r, p).
Proof. reflexivity. Qed.

Lemma sbind_set_api_key {B} key (k : unit -> SM B) a pg :
  sbind (set_api_key key) k (a, pg)
  = k tt (mkApp (has_groq_client a) (Some key) (ss_messages a) (ss_sent a), pg).
Proof. reflexivity. Qed.

Lemma sbind_init_messages {B} l (k : unit -> SM B) a pg :
  sbind (init_messages l) k (a, pg)
  = k tt (mkApp (has_groq_client a) (groq_client_api_key a) (Some l) (ss_sent a), pg).
Proof. reflexivity. Qed.

Lemma embed_run {A} (m : M A) a pg l x s' :
  ss_messages a = Some l -> m (mkSession l [] (ss_sent a)) = (Ok x, s') ->
  embed m (a, pg)
  = (Go x, (mkApp (has_groq_client a) (groq_client_api_key a) (Some (messages s')) (sent s'),
            pg ++ map POut (page s'))).
Proof. intros E H. unfold embed. rewrite E, H. reflexivity. Qed.

Lemma sbind_embed {A B} (m : M A) (k : A -> SM B) a pg l x s' :
  ss_messages a = Some l -> m (mkSession l [] (ss_sent a)) = (Ok x, s') ->
  sbind (embed m) k (a, pg)
  = k x (mkApp (has_groq_client a) (groq_client_api_key a) (Some (messages s')) (sent s'),
         pg ++ map POut (page s')).
Proof. intros E H. unfold sbind. rewrite (embed_run m a pg l x s' E H). reflexivity. Qed.

Lemma run_script_quiet loads frame_dict api inp a :
  has_groq_client a = false -> in_api_key inp <> "" -> in_prompt inp = None -> in_clear inp = false ->
  let l := match ss_messages a with Some l => l | None => [system_preamble] end in
  run_script loads frame_dict api inp a
  = (Finished, mkApp false (Some (in_api_key inp)) (Some l) (ss_sent a),
     head_items (in_theme inp)
     ++ map POut (history_events loads frame_dict (in_theme inp) (tl l))
     ++ [PHeader "Options"] ++ sidebar_items
     ++ map POut (canvas_events (in_canvas inp) (in_categories inp) (in_amounts inp))).
Proof.
  intros Hg Hk Hp Hc l.
  destruct inp as [th k pr cl en ca am]; simpl in *; subst pr cl.
  apply String.eqb_neq in Hk.
  unfold run_script, script, chat_step. cbv beta zeta.
  destruct a as [g key ms sn]; simpl in Hg; subst g.
  rewrite !sbind_show. cbv beta. rewrite sbind_get_app. norm.
  rewrite Hk. norm. rewrite sbind_set_api_key, sbind_get_app. norm.
  destruct ms as [ms|]; [rewrite sbind_sret | rewrite sbind_init_messages]; cbv beta;
  (erewrite sbind_embed; [|reflexivity|apply display_history_output]); cbv beta;
  rewrite sbind_assoc, sbind_get_app; norm;
  (erewrite sbind_embed; [|reflexivity|reflexivity]); cbv beta;
  rewrite !sbind_show; cbv beta; rewrite sbind_sret; cbv beta; rewrite !sbind_show; cbv beta;
  (erewrite embed_run; [|reflexivity|apply canvas_mode_output]); simpl.
  all: unfold l; simpl; rewrite ?map_app, <- ?app_assoc; reflexivity.
Qed.

Lemma run_script_clear loads frame_dict api inp a m0 h :
  has_groq_client a = false -> in_api_key inp <> "" -> in_prompt inp = None -> in_clear inp = true ->
  ss_messages a = Some (m0 :: h) ->
  exists pg, run_script loads frame_dict api inp a
             = (Rerun, mkApp false (Some (in_api_key inp)) (Some [m0]) (ss_sent a), pg).
Proof.
  intros Hg Hk Hp Hc Hm.
  destruct inp as [th k pr cl en ca am]; simpl in *; subst pr cl.
  apply String.eqb_neq in Hk.
  destruct a as [g key ms sn]; simpl in Hg, Hm; subst g ms.
  unfold run_script, script, chat_step. cbv beta zeta.
  rewrite !sbind_show. cbv beta. rewrite sbind_get_app. norm.
  rewrite Hk. norm. rewrite sbind_set_api_key, sbind_get_app. norm.
  rewrite sbind_sret. cbv beta.
  erewrite sbind_embed; [|reflexivity|apply display_history_output]. cbv beta.
  rewrite sbind_assoc, sbind_get_app. norm.
  erewrite sbind_embed; [|reflexivity|reflexivity]. cbv beta.
  rewrite sbind_show. cbv beta. rewrite sbind_assoc.
  erewrite sbind_embed; [|reflexivity|reflexivity]. cbv beta.
  rewrite sbind_halt. simpl. eexists. reflexivity.
Qed.

(** Clicking "Clear Chat History" leaves only the first message in the
    log and reruns the script; the page then shows no history, only the
    header, the theme style, the sidebar and the canvas output. *)
Lemma X_clear_rerun loads frame_dict api inp a m0 h :
  has_groq_client a = false -> in_api_key inp <> "" -> in_prompt inp = None -> in_clear inp = true ->
  ss_messages a = Some (m0 :: h) ->
  interact loads frame_dict api inp a
  = (Finished, mkApp false (Some (in_api_key inp)) (Some [m0]) (ss_sent a),
     head_items (in_theme inp) ++ [PHeader "Options"] ++ sidebar_items
     ++ map POut (canvas_events (in_canvas inp) (in_categories inp) (in_amounts inp))).
Proof.
  intros Hg Hk Hp Hc Hm. unfold interact.
  destruct (run_script_clear loads frame_dict api inp a m0 h Hg Hk Hp Hc Hm) as [pg E].
  rewrite E.
  rewrite (run_script_quiet loads frame_dict api (rerun_inputs inp)
             (mkApp false (Some (in_api_key inp)) (Some [m0]) (ss_sent a)) eq_refl Hk eq_refl eq_refl).
  reflexivity.
Qed.

(** A run with a key, no prompt and no click stores the key, sets the
    log to the preamble only when it is not set yet (an existing log is
    kept), and draws the header, the theme style, the history, the
    sidebar and the canvas output, in this order. *)
Lemma X_quiet_run loads frame_dict api inp a :
  has_groq_client a = false -> in_api_key inp <> "" -> in_prompt inp = None -> in_clear inp = false ->
  let l := match ss_messages a with Some l => l | None => [system_preamble] end in
  run_script loads frame_dict api inp a
  = (Finished, mkApp false (Some (in_api_key inp)) (Some l) (ss_sent a),
     head_items (in_theme inp)
     ++ map POut (history_events loads frame_dict (in_theme inp) (tl l))
     ++ [PHeader "Options"] ++ sidebar_items
     ++ map POut (canvas_events (in_canvas inp) (in_categories inp) (in_amounts inp))).
Proof. apply run_script_quiet. Qed.

(* ================================================================== *)
(** * Concrete instances of the hypotheses *)

(** [first_index] and [last_index] on a literal, by running the search. *)
Ltac solve_first := apply find_char_some; vm_compute; reflexivity.
Ltac solve_last := apply rfind_char_some; vm_compute; reflexivity.

Lemma C1_witness :
  create_visualization json_loads frame_dict_rejected DayMode (JStr "no chart here") initial_session
    = (Ok false, initial_session) /\
  create_visualization json_loads frame_dict_rejected NightMode (JStr txt_empty_lists) initial_session
    = guarded (decode_and_chart json_loads frame_dict_rejected NightMode
                 (substring 0 38 txt_empty_lists)) initial_session.
Proof.
  split.
  - apply (proj1 (C1_outer_brace_span json_loads frame_dict_rejected DayMode "no chart here" initial_session)).
    left. apply find_char_none. reflexivity.
  - apply (proj2 (C1_outer_brace_span json_loads frame_dict_rejected NightMode txt_empty_lists initial_session) 0 37);
      [solve_first | solve_last | lia].
Defined.

Lemma C2_witness :
  create_visualization json_loads frame_dict_rejected DayMode (JStr txt_title_only) initial_session
    = (Ok false, initial_session) /\
  create_visualization json_loads frame_dict_rejected DayMode (JStr txt_unequal) initial_session
    = (Ok false, mkSession [system_preamble] [UError (VizError ValueError)] []).
Proof.
  split.
  - apply (proj1 (C2_renderable_when_lists_match json_loads frame_dict_rejected DayMode
                    txt_title_only initial_session 5 18 [("title", JStr "T")]
                    ltac:(solve_first) ltac:(solve_last) ltac:(lia) ltac:(vm_compute; reflexivity))).
    left. reflexivity.
  - apply (proj2 (C2_renderable_when_lists_match json_loads frame_dict_rejected DayMode
                    txt_unequal initial_session 0 40
                    [("data", JObj [("labels", JArr [JStr "A"]); ("values", JArr [])])]
                    ltac:(solve_first) ltac:(solve_last) ltac:(lia) ltac:(vm_compute; reflexivity))
             [("labels", JArr [JStr "A"]); ("values", JArr [])] [JStr "A"] []);
      try reflexivity; exact I.
Defined.

Lemma C4_witness :
  (exists msg,
     chat_turn json_loads frame_dict_rejected DayMode (fun _ => Ok (mkResponse 401 body_null_content))
       (Some "hi") initial_session
     = (Ok tt, mkSession [system_preamble; user_msg "hi"]
                 [UMarkdown (JStr "hi"); UError msg]
                 [[system_preamble; user_msg "hi"]])) /\
  messages (snd (chat_turn json_loads frame_dict_rejected DayMode
                   (fun _ => Ok (mkResponse 200 body_ok)) (Some "hi") initial_session))
  = [system_preamble; user_msg "hi"; mkMessage Assistant (JStr "Save 20%")].
Proof.
  split.
  - apply (proj1 (C4_failed_turn_keeps_user_message json_loads frame_dict_rejected DayMode
                    (fun _ => Ok (mkResponse 401 body_null_content)) "hi" initial_session
                    ltac:(discriminate))).
    right; right; left.
    exists (mkResponse 401 body_null_content),
           (JObj [("choices", JArr [JObj [("message", JObj [("content", JNull)])]])]).
    split; [reflexivity|]. split; [vm_compute; reflexivity|]. discriminate.
  - apply (proj2 (C4_failed_turn_keeps_user_message json_loads frame_dict_rejected DayMode
                    (fun _ => Ok (mkResponse 200 body_ok)) "hi" initial_session
                    ltac:(discriminate))
             (mkResponse 200 body_ok)
             (JObj [("choices", JArr [JObj [("message", JObj [("content", JStr "Save 20%")])]])]));
      vm_compute; reflexivity.
Defined.

Lemma C5_witness :
  create_visualization json_loads frame_dict_rejected DayMode (JStr txt_words) initial_session
  = (Ok true, mkSession [system_preamble]
                [USubheader (spec_title []);
                 UChart (spec_figure DayMode
                           [("data", JObj [("labels", JArr [JStr "Rent"]); ("values", JArr [JStr "high"])])]
                           [JStr "Rent"] [JStr "high"])]
                []).
Proof.
  apply (proj1 (C5_values_passed_through json_loads frame_dict_rejected DayMode txt_words initial_session
                  9 58 [("data", JObj [("labels", JArr [JStr "Rent"]); ("values", JArr [JStr "high"])])]
                  [("labels", JArr [JStr "Rent"]); ("values", JArr [JStr "high"])]
                  [JStr "Rent"] [JStr "high"]
                  ltac:(solve_first) ltac:(solve_last) ltac:(lia) ltac:(vm_compute; reflexivity)
                  eq_refl eq_refl eq_refl I eq_refl)).
Defined.

Lemma C6_witness :
  create_visualization json_loads frame_dict_rejected NightMode (JStr txt_broken) initial_session
  = (Ok false, mkSession [system_preamble] [UError (VizError JSONDecodeError)] []).
Proof.
  apply (C6_decode_failure_reported json_loads frame_dict_rejected NightMode txt_broken initial_session
           17 51 ltac:(solve_first) ltac:(solve_last) ltac:(lia) ltac:(vm_compute; reflexivity)).
Defined.

Lemma C7_witness :
  fst (chat_turn json_loads frame_dict_rejected DayMode (fun _ => Err RequestException)
         (Some "hi") initial_session) = Ok tt /\
  sent (snd (chat_turn json_loads frame_dict_rejected DayMode (fun _ => Err RequestException)
               (Some "hi") initial_session))
  = [[system_preamble; user_msg "hi"]].
Proof.
  destruct (proj2 (proj2 (C7_only_empty_prompt_ignored json_loads frame_dict_rejected DayMode
                            (fun _ => Err RequestException) initial_session)) "hi"
              ltac:(discriminate)) as [H1 [_ H3]].
  split; [exact H1 | exact H3].
Defined.

Lemma C8_witness :
  canvas_mode true "Rent, Food" "500, abc" initial_session
  = (Ok tt, mkSession [system_preamble] (canvas_header ++ [UError (CanvasValueError ValueError)]) []) /\
  canvas_mode true "Rent, Food" "500" initial_session
  = (Ok tt, mkSession [system_preamble] (canvas_header ++ [UError CanvasCountMismatch]) []).
Proof.
  split.
  - apply (proj1 (proj2 (C8_canvas_outcomes initial_session)) "Rent, Food" "500, abc");
      [discriminate | discriminate |].
    change (map py_strip (split_on ","%char "500, abc")) with ["500"; "abc"].
    apply Exists_cons_tl, Exists_cons_hd. reflexivity.
  - apply (proj2 (proj2 (C8_canvas_outcomes initial_session)) "Rent, Food" "500" [PFin false 500 0]);
      [discriminate | discriminate | reflexivity | discriminate].
Defined.

Lemma C10_witness :
  create_visualization json_loads frame_dict_rejected NightMode (JStr txt_empty_lists) initial_session
  = (Ok true, mkSession [system_preamble]
                [USubheader (spec_title [("data", JObj [("labels", JArr []); ("values", JArr [])])]);
                 UChart (spec_figure NightMode [("data", JObj [("labels", JArr []); ("values", JArr [])])] [] [])]
                []) /\
  create_visualization json_loads frame_dict_rejected NightMode (JStr txt_list_title) initial_session
  = (Ok false, mkSession [system_preamble]
                 [USubheader (JArr [JStr "x"]); UError (VizError ValueError)] []).
Proof.
  split.
  - apply (proj1 (C10_empty_lists_render json_loads frame_dict_rejected NightMode txt_empty_lists
                    initial_session 0 37 [("data", JObj [("labels", JArr []); ("values", JArr [])])]
                    [("labels", JArr []); ("values", JArr [])]
                    ltac:(solve_first) ltac:(solve_last) ltac:(lia) ltac:(vm_compute; reflexivity)
                    eq_refl eq_refl eq_refl) I).
  - apply (proj2 (C10_empty_lists_render json_loads frame_dict_rejected NightMode txt_list_title
                    initial_session 0 (String.length txt_list_title - 1)
                    [("title", JArr [JStr "x"]);
                     ("data", JObj [("labels", JArr []); ("values", JArr [])])]
                    [("labels", JArr []); ("values", JArr [])]
                    ltac:(solve_first) ltac:(solve_last) ltac:(vm_compute; lia)
                    ltac:(vm_compute; reflexivity) eq_refl eq_refl eq_refl)
             (JArr [JStr "x"]) eq_refl eq_refl I).
Defined.

Lemma X_key_gate_witness :
  groq_client_api_key (interactions json_loads frame_dict_rejected endpoint_down
                         [mkInputs DayMode "k" None false false "" ""] fresh_app) = Some "k" /\
  interact json_loads frame_dict_rejected endpoint_down (mkInputs DayMode "" None false false "" "")
    (interactions json_loads frame_dict_rejected endpoint_down
       [mkInputs DayMode "k" None false false "" ""] fresh_app)
  = (Stopped, interactions json_loads frame_dict_rejected endpoint_down
                [mkInputs DayMode "k" None false false "" ""] fresh_app,
     head_items DayMode ++ [PInfo key_prompt]).
Proof.
  split; [vm_compute; reflexivity|].
  exact (X_key_gate json_loads frame_dict_rejected endpoint_down
           [mkInputs DayMode "k" None false false "" ""] (mkInputs DayMode "" None false false "" "")
           eq_refl).
Defined.

Lemma X_quiet_run_witness :
  run_script json_loads frame_dict_rejected endpoint_down
    (mkInputs NightMode "k" None false true "Rent, Food" "500, 300") fresh_app
  = (Finished, mkApp false (Some "k") (Some [system_preamble]) [],
     head_items NightMode ++ map POut (history_events json_loads frame_dict_rejected NightMode [])
     ++ [PHeader "Options"] ++ sidebar_items
     ++ map POut (canvas_events true "Rent, Food" "500, 300")).
Proof.
  exact (X_quiet_run json_loads frame_dict_rejected endpoint_down
           (mkInputs NightMode "k" None false true "Rent, Food" "500, 300") fresh_app
           eq_refl ltac:(discriminate) eq_refl eq_refl).
Defined.

Lemma X_clear_rerun_witness :
  interact json_loads frame_dict_rejected endpoint_down
    (mkInputs DayMode "k" None true false "" "")
    (mkApp false (Some "k") (Some [system_preamble; user_msg "hi"]) [])
  = (Finished, mkApp false (Some "k") (Some [system_preamble]) [],
     head_items DayMode ++ [PHeader "Options"] ++ sidebar_items
     ++ map POut (canvas_events false "" "")).
Proof.
  exact (X_clear_rerun json_loads frame_dict_rejected endpoint_down
           (mkInputs DayMode "k" None true false "" "")
           (mkApp false (Some "k") (Some [system_preamble; user_msg "hi"]) [])
           system_preamble [user_msg "hi"] eq_refl ltac:(discriminate) eq_refl eq_refl eq_refl).
Defined.


Lemma X_status_error_report_witness :
  chat_turn json_loads frame_dict_rejected DayMode (fun _ => Ok (mkResponse 401 body_bad_key))
    (Some "hi") initial_session
  = (Ok tt, mkSession [system_preamble; user_msg "hi"]
              [UMarkdown (JStr "hi");
               UError (ApiStatus 401 (JObj [("message", JStr "Invalid API Key")]))]
              [[system_preamble; user_msg "hi"]]).
Proof.
  exact (X_status_error_report json_loads frame_dict_rejected DayMode
           (fun _ => Ok (mkResponse 401 body_bad_key)) "hi" initial_session
           (mkResponse 401 body_bad_key) ltac:(discriminate) eq_refl ltac:(discriminate)).
Defined.

Lemma X_failed_prompt_resent_witness :
  let s1 := snd (chat_turn json_loads frame_dict_rejected DayMode post_down (Some "one") initial_session) in
  messages s1 = [system_preamble; user_msg "one"] /\
  sent (snd (chat_turn json_loads frame_dict_rejected DayMode post_down (Some "two") s1))
  = sent s1 ++ [[system_preamble; user_msg "one"; user_msg "two"]].
Proof.
  exact (X_failed_prompt_resent json_loads frame_dict_rejected DayMode post_down post_down
           "one" "two" initial_session ltac:(discriminate) ltac:(discriminate)
           (or_introl (ex_intro _ RequestException eq_refl))).
Defined.

Lemma X_data_not_object_witness :
  exists ev,
    create_visualization json_loads frame_dict_rejected DayMode (JStr txt_data_string) initial_session
    = (Ok false, mkSession [system_preamble] ev []) /\
    (ev = [] \/ ev = [UError (VizError TypeError)]).
Proof.
  exact (X_data_not_object json_loads frame_dict_rejected DayMode txt_data_string initial_session
           0 28 [("data", JStr "labels and values")] (JStr "labels and values")
           ltac:(solve_first) ltac:(solve_last) ltac:(lia) ltac:(vm_compute; reflexivity)
           eq_refl ltac:(discriminate)).
Defined.

Lemma X_canvas_comma_count_witness :
  canvas_mode true "Rent, Food, Fun" "500, 300" initial_session
  = (Ok tt, mkSession [system_preamble] ([] ++ canvas_header ++ [UError CanvasCountMismatch]) []) /\
  canvas_mode true "Rent, Food" amounts_arabic initial_session
  = (Ok tt, mkSession [system_preamble]
              ([] ++ canvas_header ++ [canvas_chart "Rent, Food" [PFin false 500 0; PFin false 12 0]]) []).
Proof.
  split.
  - exact (X_canvas_comma_count "Rent, Food, Fun" "500, 300" [PFin false 500 0; PFin false 300 0]
             initial_session ltac:(discriminate) ltac:(discriminate) eq_refl).
  - exact (X_canvas_comma_count "Rent, Food" amounts_arabic [PFin false 500 0; PFin false 12 0]
             initial_session ltac:(discriminate) ltac:(discriminate) ltac:(vm_compute; reflexivity)).
Defined.

Lemma X_canvas_blank_amount_witness :
  canvas_mode true "Rent, Food" "500," initial_session
  = (Ok tt, mkSession [system_preamble]
              ([] ++ canvas_header ++ [UError (CanvasValueError ValueError)]) []) /\
  canvas_mode true "Rent, Food" amounts_nbsp initial_session
  = (Ok tt, mkSession [system_preamble]
              ([] ++ canvas_header ++ [UError (CanvasValueError ValueError)]) []).
Proof.
  split.
  - exact (X_canvas_blank_amount "Rent, Food" "500," initial_session ltac:(discriminate)
             ltac:(discriminate)
             ltac:(change (split_on ","%char "500,") with ["500"; ""];
                   apply Exists_cons_tl, Exists_cons_hd; reflexivity)).
  - exact (X_canvas_blank_amount "Rent, Food" amounts_nbsp initial_session ltac:(discriminate)
             ltac:(discriminate)
             ltac:(change (split_on ","%char amounts_nbsp)
                     with ["500"; string_of_list_ascii (map ascii_of_nat [194; 160])];
                   apply Exists_cons_tl, Exists_cons_hd; vm_compute; reflexivity)).
Defined.
